(** * Session management of the UBA dashboard front end

    A shallow embedding of the two session managers of the front end and of
    the HTTP helpers they call:

    - [ApiAuth]     : [frontend/src/api/auth.ts], the axios collaborator;
    - [AuthContext] : the React provider [AuthProvider] with [useAuth]
                      ([src/unnamed/part_001], imported by the pages as
                      [contexts/AuthContext]), which holds [user], [token],
                      [loading] and [error];
    - [Api]         : the fetch helper [apiRequest] and its callers
                      ([src/unnamed/part_003], imported by [auth.ts] as
                      [./api]);
    - [ServicesApi] : [frontend/src/services/api.js], [handleResponse];
    - [Auth]        : [frontend/src/auth.ts], the standalone module that
                      keeps the session in [localStorage];
    - [Layout]      : [handleLogout] of the layout component, the caller of
                      the provider's [logout].

    Beyond the session managers: [WithAuth] (the wrapper of [auth.ts]),
    [ApiFiles] ([convertFile] of [api.ts]), [LayoutView] (menu and title
    bar), [DashboardView] (the greeting), [LeadGenerator], [FileConverter]
    and [AppStatus] (the status page of [App.js]).

    [localStorage] is a finite map from keys to strings.  A value that is
    [string | null] (or possibly [undefined]) in the source is an
    [option string]: [None] stands for both [null] and [undefined], which no
    path of the code tells apart.  A function that may throw returns a
    [Res].  An asynchronous function [f] is cut at its [await]: [f_begin]
    is the part that sends the request, [f_then] and [f_catch] are the parts
    that run on the collaborator's answer, which they take as an argument. *)

From Stdlib Require Import ZArith String Ascii List Bool DecimalString.
From stdpp Require Import base option gmap strings list.

Local Open Scope string_scope.
Local Open Scope Z_scope.

(** ** JavaScript values the session code handles *)

(** The [User] interface, identical in [AuthContext.tsx], [auth.ts] and
    [api/auth.ts].  The two [number] fields hold integers. *)
Record User := mkUser {
  id : Z;
  email : string;
  credits : Z;
  is_admin : bool
}.

(** A thrown [Error] and the completion of a call that may throw. *)
Inductive JsError := Error (msg : string).

Inductive Res (A : Type) :=
| Ok (a : A)
| Throw (e : JsError).
Arguments Ok {A} a.
Arguments Throw {A} e.

(** JavaScript truthiness of a string: every string but the empty one. *)
Definition truthy_str (s : string) : bool := negb (String.eqb s "").

(** Truthiness of a [string | null | undefined]. *)
Definition truthy (v : option string) : bool :=
  match v with
  | Some s => truthy_str s
  | None => false
  end.

(** [a || b] on strings where [a] may be missing. *)
Definition or_else (a : option string) (b : string) : string :=
  match a with
  | Some s => if truthy_str s then s else b
  | None => b
  end.

(** [`Bearer ${token}`] *)
Definition Bearer (t : string) : string := "Bearer " ++ t.

(** A navigation the session code asks for: through the router's [navigate]
    function, or by assigning [window.location.href]. *)
Inductive Navigation :=
| RouterNavigate (path : string)
| LocationHref (href : string).

(** The body of a non-2xx answer: a JSON object that may carry [message]. *)
Record ErrorBody := mkErrorBody { message : option string }.

(** ** [api/auth.ts]: the axios collaborator *)
Module ApiAuth.

(** [AuthResponse]: what [/login] and [/register] answer.  [token] is typed
    [string], but the code guards against a missing one, hence the option. *)
Record AuthResponse := mkAuthResponse {
  token : option string;
  user : User
}.

(** The requests the module sends, with what each one carries. *)
Inductive Call :=
| PostRegister (email password : string)
| PostLogin (email password : string)
| GetMe (Authorization : string).

Definition register (email password : string) : Call := PostRegister email password.
Definition login (email password : string) : Call := PostLogin email password.
(** [getCurrentUser] sets the header itself, from its argument. *)
Definition getCurrentUser (token : string) : Call := GetMe (Bearer token).

(** An axios rejection: [err.response] is missing on a transport failure,
    [err.response.data] may be missing, and so may its [message]. *)
Record AxiosResponse := mkAxiosResponse { data : option ErrorBody }.
Record AxiosError := mkAxiosError { response : option AxiosResponse }.

(** How a request ends. *)
Inductive Outcome :=
| Rejected (err : AxiosError)
| AuthData (r : AuthResponse)
| UserData (u : User).

End ApiAuth.

(** ** [contexts/AuthContext.tsx]: the provider *)
Module AuthContext.
Import ApiAuth.

(** The four [useState] cells. *)
Record State := mkState {
  st_user : option User;
  st_token : option string;
  st_loading : bool;
  st_error : option string
}.

(** The provider together with what surrounds it: [localStorage],
    [axios.defaults.headers.common['Authorization']], the requests sent so
    far, those still awaiting an answer, and the navigations the router was
    asked for, oldest first. *)
Record World := mkWorld {
  state : State;
  localStorage : gmap string string;
  axios_Authorization : option string;
  calls : list Call;
  pending : list Call;
  navigations : list Navigation
}.

Definition setUser (u : option User) (s : State) : State :=
  mkState u (st_token s) (st_loading s) (st_error s).
Definition setToken (t : option string) (s : State) : State :=
  mkState (st_user s) t (st_loading s) (st_error s).
Definition setLoading (b : bool) (s : State) : State :=
  mkState (st_user s) (st_token s) b (st_error s).
Definition setError (e : option string) (s : State) : State :=
  mkState (st_user s) (st_token s) (st_loading s) e.

Definition upd (f : State -> State) (w : World) : World :=
  mkWorld (f (state w)) (localStorage w) (axios_Authorization w) (calls w) (pending w) (navigations w).
Definition with_storage (f : gmap string string -> gmap string string) (w : World) : World :=
  mkWorld (state w) (f (localStorage w)) (axios_Authorization w) (calls w) (pending w) (navigations w).
Definition with_axios (a : option string) (w : World) : World :=
  mkWorld (state w) (localStorage w) a (calls w) (pending w) (navigations w).
(** Sending a request: it is logged and awaits its answer. *)
Definition issue (c : Call) (w : World) : World :=
  mkWorld (state w) (localStorage w) (axios_Authorization w) (calls w ++ [c]) (pending w ++ [c])
    (navigations w).

Definition user (w : World) : option User := st_user (state w).
Definition token (w : World) : option string := st_token (state w).
Definition loading (w : World) : bool := st_loading (state w).
Definition error (w : World) : option string := st_error (state w).

(** First [useEffect(..., [token])]: "Set up axios defaults". *)
Definition syncEffect (w : World) : World :=
  match token w with
  | Some t =>
      if truthy_str t
      then with_axios (Some (Bearer t)) (with_storage (insert "token" t) w)
      else with_storage (delete "token") (with_axios None w)
  | None => with_storage (delete "token") (with_axios None w)
  end.

(** Second [useEffect(..., [token])]: [loadUser] up to its [await]. *)
Definition loadUser (w : World) : World :=
  match token w with
  | Some t =>
      if truthy_str t
      then issue (getCurrentUser t) w
      else upd (setLoading false) w
  | None => upd (setLoading false) w
  end.

Definition runEffects (w : World) : World := loadUser (syncEffect w).

(** The render that follows a handler's state updates, [prev] being the
    token at the previous render: both effects have [token] as their only
    dependency, so they run, in the order they are declared, exactly when
    the token differs from [prev].  The updates of one handler are taken
    together; the effects see the state after all of them. *)
Definition render (prev : option string) (w : World) : World :=
  if decide (prev = token w) then w else runEffects w.

(** Mounting the provider: the initial state, then both effects. *)
Definition mount (storage : gmap string string) (axios0 : option string) : World :=
  runEffects
    (mkWorld (mkState None (storage !! "token") true None) storage axios0 [] [] []).

(** [loadUser] after its [await]: the [try] continues, or [catch] runs. *)
Definition loadUser_then (userData : User) (w : World) : World :=
  upd (setLoading false) (upd (setUser (Some userData)) w).

Definition loadUser_catch (w : World) : World :=
  render (token w) (upd (setLoading false) (upd (setToken None) w)).

Definition handleAuthResponse (response : AuthResponse) (w : World) : World :=
  upd (setUser (Some (ApiAuth.user response))) (upd (setToken (ApiAuth.token response)) w).

(** [login], cut at [await apiLogin(email, password)]. *)
Definition login_begin (email password : string) (w : World) : World :=
  issue (ApiAuth.login email password)
    (upd (setError None) (upd (setLoading true) w)).

(** [err.response?.data?.message] *)
Definition response_message (err : AxiosError) : option string :=
  match response err with
  | Some r =>
      match data r with
      | Some d => message d
      | None => None
      end
  | None => None
  end.

(** The [try] branch followed by [finally]. *)
Definition login_then (response : AuthResponse) (w : World) : World * Res unit :=
  (render (token w) (upd (setLoading false) (handleAuthResponse response w)), Ok tt).

(** The [catch] branch followed by [finally]; the promise rejects. *)
Definition login_catch (err : AxiosError) (w : World) : World * Res unit :=
  let errorMessage := or_else (response_message err) "Login failed" in
  (upd (setLoading false) (upd (setError (Some errorMessage)) w),
   Throw (Error errorMessage)).

(** [register], cut at [await apiRegister(email, password)]. *)
Definition register_begin (email password : string) (w : World) : World :=
  issue (ApiAuth.register email password)
    (upd (setError None) (upd (setLoading true) w)).

Definition register_then (response : AuthResponse) (w : World) : World * Res unit :=
  (render (token w) (upd (setLoading false) (handleAuthResponse response w)), Ok tt).

Definition register_catch (err : AxiosError) (w : World) : World * Res unit :=
  let errorMessage := or_else (response_message err) "Registration failed" in
  (upd (setLoading false) (upd (setError (Some errorMessage)) w),
   Throw (Error errorMessage)).

Definition logout (w : World) : World :=
  render (token w)
    (with_storage (delete "token") (upd (setUser None) (upd (setToken None) w))).

(** The object handed to [AuthContext.Provider]. *)
Record AuthContextType := mkAuthContextType {
  ctx_user : option User;
  ctx_token : option string;
  ctx_loading : bool;
  ctx_error : option string
}.

Definition value (w : World) : AuthContextType :=
  mkAuthContextType (user w) (token w) (loading w) (error w).

(** [useContext(AuthContext)] in a component whose enclosing providers,
    nearest first, supply [providers]: the nearest value, or the default
    given to [createContext], which is [undefined]. *)
Definition useContext (providers : list AuthContextType) : option AuthContextType :=
  match providers with
  | v :: _ => Some v
  | [] => None
  end.

Definition useAuth (providers : list AuthContextType) : Res AuthContextType :=
  match useContext providers with
  | None => Throw (Error "useAuth must be used within an AuthProvider")
  | Some context => Ok context
  end.

(** *** The provider as a transition system

    What can happen to a mounted provider: a component calls [login],
    [register] or [logout], or a request that is awaiting its answer gets
    one.  The second component of the result is what the caller of the
    operation observes; [loadUser] has no caller and never rejects. *)
Inductive Event :=
| CallLogin (email password : string)
| CallRegister (email password : string)
| CallLogout
| Settle (i : nat) (o : Outcome).

(** The continuation of the request [c] when it ends with [o]. *)
Definition resume (c : Call) (o : Outcome) (w : World) : option (World * Res unit) :=
  match c, o with
  | GetMe _, UserData u => Some (loadUser_then u w, Ok tt)
  | GetMe _, Rejected _ => Some (loadUser_catch w, Ok tt)
  | PostLogin _ _, AuthData r => Some (login_then r w)
  | PostLogin _ _, Rejected err => Some (login_catch err w)
  | PostRegister _ _, AuthData r => Some (register_then r w)
  | PostRegister _ _, Rejected err => Some (register_catch err w)
  | _, _ => None
  end.

Definition retire (i : nat) (w : World) : World :=
  mkWorld (state w) (localStorage w) (axios_Authorization w) (calls w)
    (take i (pending w) ++ drop (S i) (pending w)) (navigations w).

Definition handle (ev : Event) (w : World) : option (World * Res unit) :=
  match ev with
  | CallLogin e p => Some (login_begin e p w, Ok tt)
  | CallRegister e p => Some (register_begin e p w, Ok tt)
  | CallLogout => Some (logout w, Ok tt)
  | Settle i o =>
      match pending w !! i with
      | Some c => resume c o (retire i w)
      | None => None
      end
  end.

(** A call of [login] whose request is answered before anything else
    happens; likewise for [register]. *)
Definition login (email password : string) (o : Outcome) (w : World)
    : option (World * Res unit) :=
  handle (Settle (length (pending w)) o) (login_begin email password w).

Definition register (email password : string) (o : Outcome) (w : World)
    : option (World * Res unit) :=
  handle (Settle (length (pending w)) o) (register_begin email password w).

(** Running a sequence of events; [None] when one of them cannot occur. *)
Fixpoint run (evs : list Event) (w : World) : option World :=
  match evs with
  | [] => Some w
  | ev :: evs' =>
      match handle ev w with
      | Some (w', _) => run evs' w'
      | None => None
      end
  end.

(** The states a provider can be in: those a run reaches from a mount. *)
Inductive reachable : World -> Prop :=
| reachable_mount storage axios0 : reachable (mount storage axios0)
| reachable_step ev w w' r :
    reachable w -> handle ev w = Some (w', r) -> reachable w'.

End AuthContext.

(** ** [frontend/src/api.ts]: the fetch helper *)
Module Api.

Definition API_BASE : string := "https://universar-bussinesss-automation.onrender.com/api".

(** The request bodies built with [JSON.stringify] in this module. *)
Inductive Body :=
| Credentials (email password : string).

(** [RequestInit], as far as the module uses it. *)
Record RequestInit := mkRequestInit {
  method : option string;
  body : option Body;
  headers : gmap string string
}.

Definition no_options : RequestInit := mkRequestInit None None ∅.

(** What is handed to [fetch]. *)
Record Request := mkRequest {
  url : string;
  init : RequestInit
}.

(** How [fetch] and [response.json()] end: [fetch] itself rejects, or the
    answer is not [ok] and its body is an error object, or it is [ok]. *)
Inductive Outcome (A : Type) :=
| Failed (e : JsError)
| NotOk (error : ErrorBody)
| IsOk (payload : A).
Arguments Failed {A} e.
Arguments NotOk {A} error.
Arguments IsOk {A} payload.

(** [apiRequest] up to [await fetch(...)].  The object spread lets a later
    source win: [options.headers] over the bearer header over the content
    type. *)
Definition apiRequest_begin (endpoint : string) (options : RequestInit)
    (localStorage : gmap string string) : Request :=
  let token := localStorage !! "token" in
  let auth : gmap string string :=
    match token with
    | Some t => if truthy_str t then {[ "Authorization" := Bearer t ]} else ∅
    | None => ∅
    end in
  let headers := headers options ∪ (auth ∪ {[ "Content-Type" := "application/json" ]}) in
  mkRequest (API_BASE ++ endpoint) (mkRequestInit (method options) (body options) headers).

(** [apiRequest] after [await fetch(...)]. *)
Definition apiRequest_then {A : Type} (o : Outcome A) : Res A :=
  match o with
  | Failed e => Throw e
  | NotOk error => Throw (Error (or_else (message error) "Something went wrong"))
  | IsOk payload => Ok payload
  end.

Definition login (email password : string) : gmap string string -> Request :=
  apiRequest_begin "/auth/login"
    (mkRequestInit (Some "POST") (Some (Credentials email password)) ∅).

Definition register (email password : string) : gmap string string -> Request :=
  apiRequest_begin "/auth/register"
    (mkRequestInit (Some "POST") (Some (Credentials email password)) ∅).

Definition getUserProfile : gmap string string -> Request :=
  apiRequest_begin "/users/me" no_options.

End Api.

(** ** [frontend/src/services/api.js] *)
Module ServicesApi.

(** [handleResponse]: [response.json()] is [error] when the answer is not
    [ok] and [payload] when it is. *)
Definition handleResponse {A : Type} (ok : bool) (error : ErrorBody) (payload : A) : Res A :=
  if negb ok
  then Throw (Error (or_else (message error) "Something went wrong"))
  else Ok payload.

End ServicesApi.

(** ** [JSON.stringify] and [JSON.parse] on user records

    The two built-ins are parameters of the development, at the type the
    session code uses them at, [User | null]: [JSON_parse] yields [None]
    where [JSON.parse] throws a [SyntaxError], [Some None] where it returns
    [null] and [Some (Some u)] where it returns the user record [u]. *)
Class JSON := mkJSON {
  JSON_stringify : User -> string;
  JSON_parse : string -> option (option User)
}.

(** ** [frontend/src/auth.ts]: the standalone session module

    The module runs in the browser, where [window] and [localStorage] exist
    together; the guard [typeof window === 'undefined'] of [getCurrentUser]
    is then false and is left out. *)
Module Auth.
Import ApiAuth.

Section WithJSON.
Context {json : JSON}.

(** What the module acts on: [localStorage] and the navigations asked for,
    oldest first. *)
Record Browser := mkBrowser {
  localStorage : gmap string string;
  navigations : list Navigation
}.

Definition saveUser (userData : AuthResponse) (storage : gmap string string)
    : gmap string string :=
  match ApiAuth.token userData with
  | Some t =>
      if truthy_str t
      then <["user" := JSON_stringify (ApiAuth.user userData)]> (<["token" := t]> storage)
      else storage
  | None => storage
  end.

(** [Throw] is the [SyntaxError] of [JSON.parse]. *)
Definition getCurrentUser (storage : gmap string string) : Res (option User) :=
  match storage !! "user" with
  | Some user =>
      if truthy_str user
      then match JSON_parse user with
           | Some parsed => Ok parsed
           | None => Throw (Error "SyntaxError")
           end
      else Ok None
  | None => Ok None
  end.

Definition getToken (storage : gmap string string) : option string :=
  storage !! "token".

Definition isAuthenticated (storage : gmap string string) : bool :=
  truthy (getToken storage).

(** [user?.is_admin === true] *)
Definition isAdmin (storage : gmap string string) : Res bool :=
  match getCurrentUser storage with
  | Ok (Some user) => Ok (is_admin user)
  | Ok None => Ok false
  | Throw e => Throw e
  end.

(** [loginUser] up to its [await]: the request [login] of [api.ts] sends. *)
Definition loginUser_begin (email password : string) (b : Browser) : Api.Request :=
  Api.login email password (localStorage b).

(** [loginUser] after [await login(email, password)]. *)
Definition loginUser_then (o : Api.Outcome AuthResponse) (b : Browser)
    : Browser * Res User :=
  match Api.apiRequest_then o with
  | Ok response =>
      (mkBrowser (saveUser response (localStorage b)) (navigations b),
       Ok (ApiAuth.user response))
  | Throw e => (b, Throw e)
  end.

Definition registerUser_begin (email password : string) (b : Browser) : Api.Request :=
  Api.register email password (localStorage b).

(** [registerUser] after [await register(email, password)]. *)
Definition registerUser_then (o : Api.Outcome AuthResponse) (b : Browser)
    : Browser * Res User :=
  match Api.apiRequest_then o with
  | Ok response =>
      (mkBrowser (saveUser response (localStorage b)) (navigations b),
       Ok (ApiAuth.user response))
  | Throw e => (b, Throw e)
  end.

(** [logout(navigate?)]: [navigate], when given, is the router's function
    ([withAuth] passes [useNavigate()]); the call is recorded. *)
Definition logout (navigate : bool) (b : Browser) : Browser :=
  let storage := delete "user" (delete "token" (localStorage b)) in
  if navigate
  then mkBrowser storage (navigations b ++ [RouterNavigate "/login"])
  else mkBrowser storage (navigations b ++ [LocationHref "/login"]).

Definition fetchUserProfile_begin (b : Browser) : Api.Request :=
  Api.getUserProfile (localStorage b).

(** [fetchUserProfile] after [await getUserProfile()]; the body of a
    successful answer may be [null].  The function never rejects. *)
Definition fetchUserProfile_then (o : Api.Outcome (option User)) (b : Browser)
    : Browser * Res (option User) :=
  match Api.apiRequest_then o with
  | Ok (Some user) =>
      (mkBrowser (<["user" := JSON_stringify user]> (localStorage b)) (navigations b),
       Ok (Some user))
  | Ok None => (b, Ok None)
  | Throw error => (logout false b, Ok None)
  end.

End WithJSON.
End Auth.

(** ** [components/Layout.tsx]: the caller of the provider's [logout] *)
Module Layout.

(** The router's [navigate], as a request recorded in the world. *)
Definition navigate (path : string) (w : AuthContext.World) : AuthContext.World :=
  AuthContext.mkWorld (AuthContext.state w) (AuthContext.localStorage w)
    (AuthContext.axios_Authorization w) (AuthContext.calls w) (AuthContext.pending w)
    (AuthContext.navigations w ++ [RouterNavigate path]).

(** [handleLogout]: [handleClose(); logout(); navigate('/login')], where
    [logout] is the provider's; [handleClose] only closes the menu. *)
Definition handleLogout (w : AuthContext.World) : AuthContext.World :=
  navigate "/login" (AuthContext.logout w).

End Layout.

(** ** A JSON codec for user records

    An instance of the [JSON] parameters, for records whose [email] needs no
    escaping: [stringify] writes the object the way [JSON.stringify] does,
    [parse] reads that layout back, reads [null], and fails on anything
    else. *)
Module UserJson.

Definition quote : ascii := "034"%char.
Definition q (s : string) : string := String quote s ++ String quote EmptyString.

Fixpoint split_at (c : ascii) (s : string) : option (string * string) :=
  match s with
  | EmptyString => None
  | String a s' =>
      if Ascii.eqb a c then Some (EmptyString, s')
      else match split_at c s' with
           | Some (l, r) => Some (String a l, r)
           | None => None
           end
  end.

Fixpoint strip_prefix (p s : string) : option string :=
  match p, s with
  | EmptyString, _ => Some s
  | String a p', String b s' => if Ascii.eqb a b then strip_prefix p' s' else None
  | String _ _, EmptyString => None
  end.

Definition show_Z (z : Z) : string := NilZero.string_of_int (Z.to_int z).
Definition read_Z (s : string) : option Z := Z.of_int <$> NilZero.int_of_string s.

Definition stringify (u : User) : string :=
  "{" ++ q "id" ++ ":" ++ show_Z (id u)
  ++ "," ++ q "email" ++ ":" ++ q (email u)
  ++ "," ++ q "credits" ++ ":" ++ show_Z (credits u)
  ++ "," ++ q "is_admin" ++ ":" ++ (if is_admin u then "true" else "false")
  ++ "}".

Definition parse_record (s : string) : option User :=
  s ← strip_prefix ("{" ++ q "id" ++ ":") s;
  '(i, s) ← split_at "," s;
  i ← read_Z i;
  s ← strip_prefix (q "email" ++ ":" ++ String quote EmptyString) s;
  '(e, s) ← split_at quote s;
  s ← strip_prefix ("," ++ q "credits" ++ ":") s;
  '(c, s) ← split_at "," s;
  c ← read_Z c;
  s ← strip_prefix (q "is_admin" ++ ":") s;
  if String.eqb s "true}" then Some (mkUser i e c true)
  else if String.eqb s "false}" then Some (mkUser i e c false)
  else None.

Definition parse (s : string) : option (option User) :=
  if String.eqb s "null" then Some None else Some <$> parse_record s.

Definition json : JSON := mkJSON stringify parse.

End UserJson.

(** ** Sample data, from the scenarios of the specification *)
Module Sample.

Definition alice : User := mkUser 1 "a@b.com" 5 false.
Definition root : User := mkUser 2 "root@b.com" 0 true.
Definition unauthorized : ApiAuth.AxiosError :=
  ApiAuth.mkAxiosError
    (Some (ApiAuth.mkAxiosResponse (Some (mkErrorBody (Some "Invalid credentials"))))).
Definition unreachable : ApiAuth.AxiosError := ApiAuth.mkAxiosError None.

End Sample.

(** ** Vocabulary of the session claims *)
Module Session.

(** The credential a token puts on outgoing requests: none when the token
    is missing or empty. *)
Definition credential (tok : option string) : option string :=
  match tok with
  | Some t => if truthy_str t then Some (Bearer t) else None
  | None => None
  end.

(** What durable storage holds under ['token'] for a given token. *)
Definition persisted (tok : option string) : option string :=
  if truthy tok then tok else None.

(** The default credential and the persisted token follow [token]. *)
Definition synced (w : AuthContext.World) : Prop :=
  AuthContext.axios_Authorization w = credential (AuthContext.token w) /\
  AuthContext.localStorage w !! "token" = persisted (AuthContext.token w).

(** The session invariant of the data model: a user only with a token. *)
Definition user_only_with_token (w : AuthContext.World) : Prop :=
  AuthContext.user w <> None -> truthy (AuthContext.token w) = true.

(** The navigation last asked for leads to the login page. *)
Definition sent_to_login (navigations : list Navigation) : Prop :=
  last navigations = Some (RouterNavigate "/login") \/
  last navigations = Some (LocationHref "/login").

End Session.

(** ** [frontend/src/auth.ts]: the wrapper [withAuth] *)
Module WithAuth.
Section WithJSON.
Context {json : JSON}.

(** The two [useState] cells of [WithAuth]. *)
Record State := mkState {
  isLoading : bool;
  user : option User
}.

Definition initial : State := mkState true None.

(** What [WithAuth] renders: the text 'Loading...', or the wrapped
    component with its [user] property. *)
Inductive View :=
| LoadingText
| Wrapped (user : option User).

Definition view (s : State) : View :=
  if isLoading s then LoadingText else Wrapped (user s).

(** [checkAuth] up to its [await]: without a token it navigates and
    returns, so no request is sent and [finally] never runs. *)
Definition checkAuth_begin (b : Auth.Browser) : Auth.Browser * option Api.Request :=
  if negb (Auth.isAuthenticated (Auth.localStorage b))
  then (Auth.mkBrowser (Auth.localStorage b)
          (Auth.navigations b ++ [RouterNavigate "/login"]), None)
  else (b, Some (Auth.fetchUserProfile_begin b)).

(** [checkAuth] after [await fetchUserProfile()], [finally] included. *)
Definition checkAuth_then (o : Api.Outcome (option User)) (s : State) (b : Auth.Browser)
    : State * Auth.Browser :=
  match Auth.fetchUserProfile_then o b with
  | (b', Ok (Some userData)) => (mkState false (Some userData), b')
  | (b', Ok None) => (mkState false (user s), b')
  | (b', Throw _) => (mkState false (user s), Auth.logout true b')
  end.

(** The effect of a freshly mounted wrapper, [o] being the answer to the
    profile request if one is sent. *)
Definition checkAuth (o : Api.Outcome (option User)) (b : Auth.Browser)
    : State * Auth.Browser :=
  match checkAuth_begin b with
  | (b', None) => (initial, b')
  | (b', Some _) => checkAuth_then o initial b'
  end.

End WithJSON.
End WithAuth.

(** ** The file upload of [api.ts] *)
Module ApiFiles.

(** What [convertFile] hands to [fetch]; the body is a form holding the
    file. *)
Record UploadRequest (F : Type) := mkUploadRequest {
  url : string;
  method : string;
  headers : gmap string string;
  file : F
}.
Arguments mkUploadRequest {F} url method headers file.
Arguments url {F} _.
Arguments method {F} _.
Arguments headers {F} _.
Arguments file {F} _.

(** [`${token}`] for a [string | null]: [null] is spelled out. *)
Definition template (v : option string) : string :=
  match v with
  | Some s => s
  | None => "null"
  end.

(** [convertFile] up to [await fetch(...)]. *)
Definition convertFile_begin {F : Type} (endpoint : string) (file : F)
    (localStorage : gmap string string) : UploadRequest F :=
  let token := localStorage !! "token" in
  mkUploadRequest (Api.API_BASE ++ "/files/" ++ endpoint) "POST"
    {[ "Authorization" := "Bearer " ++ template token ]} file.

(** [convertFile] after [await fetch(...)]; [payload] is [response.blob()]. *)
Definition convertFile_then {B : Type} (o : Api.Outcome B) : Res B :=
  match o with
  | Api.Failed e => Throw e
  | Api.NotOk error => Throw (Error (or_else (message error) "File conversion failed"))
  | Api.IsOk payload => Ok payload
  end.

End ApiFiles.

(** ** [components/Layout.tsx]: menu and title bar *)
Module LayoutView.

Record MenuItem := mkMenuItem {
  text : string;
  path : string
}.

(** [menuItems], without the icons. *)
Definition menuItems (user : option User) : list MenuItem :=
  [ mkMenuItem "Dashboard" "/";
    mkMenuItem "Lead Generator" "/leads";
    mkMenuItem "File Converter" "/converter";
    mkMenuItem "My Files" "/my-files";
    mkMenuItem "Job History" "/history";
    mkMenuItem "Billing" "/billing" ]
  ++ (if match user with Some u => is_admin u | None => false end
      then [ mkMenuItem "Admin" "/admin" ]
      else []).

(** [menuItems.find(item => item.path === location.pathname)?.text || 'Dashboard'] *)
Definition title (user : option User) (pathname : string) : string :=
  or_else
    (text <$> List.find (fun item => String.eqb (path item) pathname) (menuItems user))
    "Dashboard".

End LayoutView.

(** ** [pages/Dashboard.tsx]: the greeting *)
Module DashboardView.

(** [s.split(c)[0]]: what precedes the first [c], all of [s] without one. *)
Fixpoint first_segment (c : ascii) (s : string) : string :=
  match s with
  | EmptyString => EmptyString
  | String a s' => if Ascii.eqb a c then EmptyString else String a (first_segment c s')
  end.

(** [user?.email?.split('@')[0] || 'User'] *)
Definition greetingName (user : option User) : string :=
  or_else ((fun u => first_segment "@" (email u)) <$> user) "User".

End DashboardView.

(** ** [pages/LeadGenerator.tsx] *)
Module LeadGenerator.

Record Lead := mkLead {
  id : string;
  name : string;
  email : option string;
  phone : option string;
  website : option string;
  address : string;
  rating : Z;  (* a [number]; an integer in every lead the page creates *)
  industry : string;
  isSaved : bool
}.

(** [{ ...lead, isSaved: !lead.isSaved }] *)
Definition toggleSaved (lead : Lead) : Lead :=
  mkLead (id lead) (name lead) (email lead) (phone lead) (website lead)
    (address lead) (rating lead) (industry lead) (negb (isSaved lead)).

(** The new value of [leads] that [handleSaveLead] sets. *)
Definition handleSaveLead (leadId : string) (leads : list Lead) : list Lead :=
  map (fun lead => if String.eqb (id lead) leadId then toggleSaved lead else lead) leads.

(** [`${n}`] for an integer [n]. *)
Definition show (n : Z) : string := UserJson.show_Z n.

Definition STATES : list string := ["NY"; "CA"; "TX"; "FL"; "IL"].

Section Submit.
(** What the run-time supplies: [String.prototype.toLowerCase], and for the
    lead of index [i] the three integers that the [Math.floor] expressions
    over [Math.random()] yield. *)
Variable toLowerCase : string -> string.
Variables phoneArea phoneLine stars : nat -> Z.

(** The form's values. *)
Variables keyword location industry_value : string.

(** The element that [Array.from({ length: 12 }, (_, i) => ...)] builds at
    index [i]. *)
Definition mockLead (i : nat) : Lead :=
  mkLead
    ("lead-" ++ show (Z.of_nat i + 1))
    (keyword ++ " Business " ++ show (Z.of_nat i + 1))
    (Some ("contact@" ++ toLowerCase keyword ++ show (Z.of_nat i + 1) ++ ".com"))
    (Some ("+1 (555) " ++ show (phoneArea i) ++ "-" ++ show (phoneLine i)))
    (Some ("https://" ++ toLowerCase keyword ++ show (Z.of_nat i + 1) ++ ".com"))
    (show (Z.of_nat i + 100) ++ " " ++ location ++ " St, " ++ location ++ ", "
     ++ nth (i mod 5) STATES "" ++ " " ++ show (10000 + Z.of_nat i))
    (stars i)
    (or_else (Some industry_value) "Technology")
    false.

(** The [leads] that [onSubmit] sets. *)
Definition mockLeads : list Lead := map mockLead (seq 0 12).

End Submit.

(** The rows of [handleExportLeads] and the text it puts in the blob. *)
Definition csvHeader : list string :=
  ["Name"; "Email"; "Phone"; "Website"; "Address"; "Rating"; "Industry"].

Definition csvRow (lead : Lead) : list string :=
  [ name lead;
    or_else (email lead) "";
    or_else (phone lead) "";
    or_else (website lead) "";
    address lead;
    show (rating lead);
    industry lead ].

Definition newline : string := String "010"%char EmptyString.

Definition csvContent (leads : list Lead) : string :=
  String.concat newline (map (String.concat ",") (csvHeader :: map csvRow leads)).

(** The two icons of [renderRating]. *)
Inductive StarIcon :=
| Star
| StarBorder.

(** [Array(5).fill(0).map((_, i) => i < rating ? Star : StarBorder)] *)
Definition renderRating (rating : Z) : list StarIcon :=
  map (fun i => if Z.of_nat i <? rating then Star else StarBorder) (seq 0 5).

(** How many times a character occurs in a string. *)
Fixpoint occurrences (c : ascii) (s : string) : nat :=
  match s with
  | EmptyString => 0
  | String a s' => (if Ascii.eqb a c then 1 else 0) + occurrences c s'
  end.

End LeadGenerator.

(** ** [pages/FileConverter.tsx] *)
Module FileConverter.

(** The keys of [SUPPORTED_FORMATS] and the [output] of each. *)
Inductive ConversionType :=
| pdf_to_docx
| docx_to_pdf
| ppt_to_pdf
| ocr.

Definition output (t : ConversionType) : string :=
  match t with
  | pdf_to_docx => ".docx"
  | docx_to_pdf => ".pdf"
  | ppt_to_pdf => ".pdf"
  | ocr => ".txt"
  end.

Inductive Status :=
| uploading
| converting
| completed
| failed.

(** An element of [files]: what the object spread kept of the dropped
    file, [dropped], and the fields the component adds. *)
Record FileWithPreview (F : Type) := mkFile {
  dropped : F;
  preview : option string;
  status : Status;
  error : option string;
  downloadUrl : option string;
  outputFormat : option string
}.
Arguments mkFile {F} dropped preview status error downloadUrl outputFormat.
Arguments dropped {F} _.
Arguments preview {F} _.
Arguments status {F} _.
Arguments error {F} _.
Arguments downloadUrl {F} _.
Arguments outputFormat {F} _.

(** The [useState] cells of the page; [errorText] is the cell [error]. *)
Record State (F : Type) := mkState {
  activeTab : ConversionType;
  files : list (FileWithPreview F);
  isConverting : bool;
  errorText : option string
}.
Arguments mkState {F} activeTab files isConverting errorText.
Arguments activeTab {F} _.
Arguments files {F} _.
Arguments isConverting {F} _.
Arguments errorText {F} _.

(** [prevFiles.filter((_, i) => i !== index)] *)
Fixpoint filter_index {A : Type} (keep : nat -> bool) (i : nat) (l : list A) : list A :=
  match l with
  | [] => []
  | x :: l' => if keep i then x :: filter_index keep (S i) l' else filter_index keep (S i) l'
  end.

Definition handleRemoveFile {F : Type} (index : nat) (s : State F) : State F :=
  mkState (activeTab s)
    (filter_index (fun i => negb (Nat.eqb i index)) 0 (files s))
    (isConverting s) (errorText s).

Definition handleTabChange {F : Type} (tab : ConversionType) (s : State F) : State F :=
  mkState tab [] (isConverting s) (errorText s).

(** [handleConvert] up to its [await]: with no file it returns at once. *)
Definition handleConvert_begin {F : Type} (s : State F) : option (State F) :=
  if Nat.eqb (length (files s)) 0 then None
  else Some (mkState (activeTab s) (files s) true None).

(** The mock result written on every file; [tab] is the [activeTab] the
    call started with. *)
Definition converted {F : Type} (tab : ConversionType) (file : FileWithPreview F)
    : FileWithPreview F :=
  mkFile (dropped file) (preview file) completed (error file)
    (Some "https://example.com/converted-file") (Some (output tab)).

(** [handleConvert] after its [await], [finally] included.  What is awaited
    is a timer, which never rejects, so [catch] does not run. *)
Definition handleConvert_then {F : Type} (tab : ConversionType) (s : State F) : State F :=
  mkState (activeTab s) (map (converted tab) (files s)) false (errorText s).

(** A conversion during which nothing else happens. *)
Definition handleConvert {F : Type} (s : State F) : State F :=
  match handleConvert_begin s with
  | Some s1 => handleConvert_then (activeTab s) s1
  | None => s
  end.

Definition creditsToDeduct (tab : ConversionType) : Z :=
  match tab with
  | ocr => 2
  | _ => 1
  end.

End FileConverter.

(** ** [frontend/src/App.js]: the status page *)
Module AppStatus.

(** The answer of [/api/status], as far as the page reads it:
    [data.system.flask_version], [data.system.environment] and
    [data.system.last_updated]. *)
Record SystemInfo := mkSystemInfo {
  flask_version : option string;
  system_environment : option string;
  last_updated : option string
}.

Record StatusData := mkStatusData { system : option SystemInfo }.

(** The object kept in the cell [status]. *)
Record Status := mkStatus {
  status : string;
  version : string;
  environment : string;
  lastUpdated : string
}.

(** The three [useState] cells. *)
Record State := mkState {
  statusCell : option Status;
  error : option string;
  isLoading : bool
}.

Definition initial : State := mkState None None true.

(** [apiService.getStatus()] after its [fetch]: [handleResponse] on the
    answer. *)
Definition getStatus_then (o : Api.Outcome (option StatusData)) : Res (option StatusData) :=
  match o with
  | Api.Failed e => Throw e
  | Api.NotOk error => ServicesApi.handleResponse false error None
  | Api.IsOk data => ServicesApi.handleResponse true (mkErrorBody None) data
  end.

(** [data?.system?.field] *)
Definition system_field (field : SystemInfo -> option string) (data : option StatusData)
    : option string :=
  match data with
  | Some d =>
      match system d with
      | Some s => field s
      | None => None
      end
  | None => None
  end.

(** [checkStatus] after [await apiService.getStatus()]; [now] is
    [new Date().toISOString()]. *)
Definition checkStatus (now : string) (o : Api.Outcome (option StatusData)) : State :=
  match getStatus_then o with
  | Ok data =>
      mkState
        (Some (mkStatus "operational"
                 (or_else (system_field flask_version data) "1.0.0")
                 (or_else (system_field system_environment data) "development")
                 (or_else (system_field last_updated data) now)))
        None false
  | Throw _ =>
      mkState
        (Some (mkStatus "degraded" "unknown" "unknown" now))
        (Some "Unable to connect to the backend server. Some features may be limited.")
        false
  end.

End AppStatus.

(** * Properties *)

(** ** Truthiness *)

Lemma truthy_str_true (s : string) : truthy_str s = true <-> s <> "".
Proof.
  unfold truthy_str. destruct (String.eqb_spec s ""); simpl; split; congruence.
Qed.

Lemma truthy_str_false (s : string) : truthy_str s = false <-> s = "".
Proof.
  unfold truthy_str. destruct (String.eqb_spec s ""); simpl; split; congruence.
Qed.

Lemma truthy_Some (v : option string) :
  truthy v = true <-> exists t, v = Some t /\ t <> "".
Proof.
  destruct v as [t|]; simpl.
  - rewrite truthy_str_true. split; [eauto | intros (t' & [= <-] & H); exact H].
  - split; [discriminate | intros (t & H & _); discriminate].
Qed.

Lemma or_else_nonempty (a : option string) (b : string) :
  b <> "" -> or_else a b <> "".
Proof.
  intros Hb. unfold or_else. destruct a as [s|]; [|exact Hb].
  destruct (truthy_str s) eqn:E; [|exact Hb]. now apply truthy_str_true.
Qed.

Lemma or_else_message (a : option string) (b s : string) :
  a = Some s -> s <> "" -> or_else a b = s.
Proof.
  intros -> Hs. unfold or_else. apply truthy_str_true in Hs. now rewrite Hs.
Qed.

Lemma or_else_fallback (a : option string) (b : string) :
  a = None \/ a = Some "" -> or_else a b = b.
Proof. intros [-> | ->]; reflexivity. Qed.

(** ** [useAuth] *)

(** C10: a component with no [AuthProvider] above it gets the context's
    default, [undefined], and [useAuth] throws
    'useAuth must be used within an AuthProvider'; it returns a session only
    under a provider, whose value it then returns unchanged. *)
Theorem useAuth_outside_provider_throws :
  AuthContext.useContext [] = None /\
  AuthContext.useAuth [] = Throw (Error "useAuth must be used within an AuthProvider") /\
  (forall providers v, AuthContext.useAuth providers = Ok v ->
     exists rest, providers = v :: rest) /\
  (forall w rest,
     AuthContext.useAuth (AuthContext.value w :: rest) = Ok (AuthContext.value w)).
Proof.
  split; [reflexivity|]. split; [reflexivity|]. split; [|reflexivity].
  intros [|v' rest] v H; simpl in H; [discriminate|].
  injection H as <-. now exists rest.
Qed.

(** ** The atomic calls, unfolded *)
Section ProviderCalls.
Import ApiAuth AuthContext.

Lemma retire_issue (c : Call) (w : World) :
  retire (length (pending w)) (issue c w)
  = mkWorld (state w) (localStorage w) (axios_Authorization w)
      (calls w ++ [c]) (pending w) (navigations w).
Proof.
  unfold retire, issue; simpl. f_equal.
  rewrite take_app_length.
  rewrite drop_ge by (rewrite length_app; simpl; lia).
  now rewrite app_nil_r.
Qed.

Lemma login_rejected (email password : string) (err : AxiosError) (w : World) :
  login email password (Rejected err) w
  = Some (login_catch err (retire (length (pending w)) (login_begin email password w))).
Proof.
  unfold login, handle, login_begin, issue; simpl.
  now rewrite list_lookup_middle.
Qed.

Lemma login_answered (email password : string) (r : AuthResponse) (w : World) :
  login email password (AuthData r) w
  = Some (login_then r (retire (length (pending w)) (login_begin email password w))).
Proof.
  unfold login, handle, login_begin, issue; simpl.
  now rewrite list_lookup_middle.
Qed.

End ProviderCalls.

(** ** Failed login *)

(** [err.response?.data?.message], read off the rejection itself. *)
Lemma response_message_present (err : ApiAuth.AxiosError)
    (resp : ApiAuth.AxiosResponse) (body : ErrorBody) :
  ApiAuth.response err = Some resp -> ApiAuth.data resp = Some body ->
  AuthContext.response_message err = message body.
Proof. intros Hr Hd. unfold AuthContext.response_message. now rewrite Hr, Hd. Qed.

Lemma response_message_missing (err : ApiAuth.AxiosError) :
  ApiAuth.response err = None \/
  (exists resp, ApiAuth.response err = Some resp /\ ApiAuth.data resp = None) ->
  AuthContext.response_message err = None.
Proof.
  unfold AuthContext.response_message.
  intros [-> | (resp & -> & ->)]; reflexivity.
Qed.

(** C3: a login that the collaborator answers with a failure leaves [token],
    [user], [localStorage] and the default credential as they were and
    rejects with a message that is never empty, which the provider also
    keeps in [error]: the [message] of the rejection's payload
    ([err.response.data.message]) when it is there and not empty, and
    'Login failed' when the response, its data or its message is missing
    or the message is empty.  [loginUser] of [auth.ts] likewise leaves the
    browser as it was and rejects with the body's [message] or
    'Something went wrong', and [handleResponse] of [services/api.js]
    builds its message the same way. *)
Theorem login_failure_keeps_session :
  forall (json : JSON) (w : AuthContext.World) (b : Auth.Browser)
         (email password : string) (err : ApiAuth.AxiosError) (body : ErrorBody),
    (exists w' m,
       AuthContext.login email password (ApiAuth.Rejected err) w
         = Some (w', Throw (Error m)) /\
       AuthContext.token w' = AuthContext.token w /\
       AuthContext.user w' = AuthContext.user w /\
       AuthContext.localStorage w' = AuthContext.localStorage w /\
       AuthContext.axios_Authorization w' = AuthContext.axios_Authorization w /\
       AuthContext.error w' = Some m /\
       AuthContext.loading w' = false /\
       m <> "" /\
       (forall resp payload s,
          ApiAuth.response err = Some resp -> ApiAuth.data resp = Some payload ->
          message payload = Some s -> s <> "" -> m = s) /\
       (ApiAuth.response err = None \/
        (exists resp, ApiAuth.response err = Some resp /\ ApiAuth.data resp = None) \/
        (exists resp payload,
           ApiAuth.response err = Some resp /\ ApiAuth.data resp = Some payload /\
           (message payload = None \/ message payload = Some "")) ->
        m = "Login failed")) /\
    (exists m,
       Auth.loginUser_then (Api.NotOk body) b = (b, Throw (Error m)) /\
       ServicesApi.handleResponse false body tt = Throw (Error m) /\
       m <> "" /\
       (forall s, message body = Some s -> s <> "" -> m = s) /\
       (message body = None \/ message body = Some "" -> m = "Something went wrong")).
Proof.
  intros json w b email password err body. split.
  - eexists _, (or_else (AuthContext.response_message err) "Login failed").
    rewrite login_rejected. unfold AuthContext.login_catch.
    repeat split; try reflexivity.
    + now apply or_else_nonempty.
    + intros resp payload s Hr Hd Hs Hne.
      rewrite (response_message_present err resp payload Hr Hd).
      now apply or_else_message.
    + intros [Hn | [Hn | (resp & payload & Hr & Hd & Hm)]].
      * rewrite response_message_missing by now left. reflexivity.
      * rewrite response_message_missing by now right. reflexivity.
      * rewrite (response_message_present err resp payload Hr Hd).
        now apply or_else_fallback.
  - exists (or_else (message body) "Something went wrong").
    repeat split; try reflexivity.
    + now apply or_else_nonempty.
    + intros s Hs Hne. now apply or_else_message.
    + intros Hn. now apply or_else_fallback.
Qed.

Lemma login_failure_keeps_session_witness :
  let w := AuthContext.mount {[ "token" := "tok1" ]} None in
  let b := Auth.mkBrowser {[ "token" := "tok1" ]} [] in
  (exists w',
     AuthContext.login "a@b.com" "bad" (ApiAuth.Rejected Sample.unauthorized) w
       = Some (w', Throw (Error "Invalid credentials")) /\
     AuthContext.token w' = Some "tok1" /\
     AuthContext.error w' = Some "Invalid credentials") /\
  (exists w',
     AuthContext.login "a@b.com" "bad" (ApiAuth.Rejected Sample.unreachable) w
       = Some (w', Throw (Error "Login failed")) /\
     AuthContext.token w' = Some "tok1") /\
  Auth.loginUser_then (json := UserJson.json)
    (Api.NotOk (mkErrorBody (Some "Invalid credentials"))) b
  = (b, Throw (Error "Invalid credentials")).
Proof.
  intros w b. split; [|split].
  - destruct (login_failure_keeps_session UserJson.json w b "a@b.com" "bad"
                Sample.unauthorized (mkErrorBody None))
      as [(w' & m & H1 & H2 & _ & _ & _ & H6 & _ & _ & Hm & _) _].
    assert (E : m = "Invalid credentials")
      by (apply (Hm _ _ _ eq_refl eq_refl eq_refl); discriminate).
    subst m. exists w'. split; [exact H1|]. split; [exact H2 | exact H6].
  - destruct (login_failure_keeps_session UserJson.json w b "a@b.com" "bad"
                Sample.unreachable (mkErrorBody None))
      as [(w' & m & H1 & H2 & _ & _ & _ & _ & _ & _ & _ & Hf) _].
    assert (E : m = "Login failed") by (apply Hf; now left).
    subst m. exists w'. split; [exact H1 | exact H2].
  - destruct (login_failure_keeps_session UserJson.json w b "a@b.com" "bad"
                Sample.unreachable (mkErrorBody (Some "Invalid credentials")))
      as [_ (m & H1 & _ & _ & Hm & _)].
    assert (E : m = "Invalid credentials") by (apply Hm; [reflexivity | discriminate]).
    subst m. exact H1.
Defined.

(** ** Responses without a token *)

(** C9: when the response's [token] is missing or empty, [saveUser] leaves
    [localStorage] as it was (neither key is written), and [loginUser] and
    [registerUser] still return the response's [user]. *)
Theorem saveUser_without_token_is_noop :
  forall (json : JSON) (response : ApiAuth.AuthResponse) (b : Auth.Browser),
    truthy (ApiAuth.token response) = false ->
    Auth.saveUser response (Auth.localStorage b) = Auth.localStorage b /\
    Auth.loginUser_then (Api.IsOk response) b = (b, Ok (ApiAuth.user response)) /\
    Auth.registerUser_then (Api.IsOk response) b = (b, Ok (ApiAuth.user response)).
Proof.
  intros json response b H.
  assert (Hs : forall storage, Auth.saveUser response storage = storage).
  { intros storage. unfold Auth.saveUser.
    destruct (ApiAuth.token response) as [t|]; simpl in H; [|reflexivity].
    now rewrite H. }
  split; [apply Hs|].
  unfold Auth.loginUser_then, Auth.registerUser_then; simpl.
  rewrite Hs. destruct b; split; reflexivity.
Qed.

Lemma saveUser_without_token_witness :
  let response := ApiAuth.mkAuthResponse (Some "") Sample.alice in
  let b := Auth.mkBrowser {[ "theme" := "dark" ]} [] in
  truthy (ApiAuth.token response) = false /\
  Auth.saveUser (json := UserJson.json) response (Auth.localStorage b) = Auth.localStorage b /\
  Auth.loginUser_then (json := UserJson.json) (Api.IsOk response) b = (b, Ok Sample.alice) /\
  Auth.registerUser_then (json := UserJson.json) (Api.IsOk response) b = (b, Ok Sample.alice).
Proof.
  intros response b. split; [reflexivity|].
  apply (saveUser_without_token_is_noop UserJson.json response b). reflexivity.
Defined.

Lemma login_rejected_any_time :
  forall (w : AuthContext.World) (i : nat) (email password : string)
         (err : ApiAuth.AxiosError),
    AuthContext.pending w !! i = Some (ApiAuth.PostLogin email password) ->
    exists w' m,
      AuthContext.handle (AuthContext.Settle i (ApiAuth.Rejected err)) w
        = Some (w', Throw (Error m)) /\
      AuthContext.token w' = AuthContext.token w /\
      AuthContext.user w' = AuthContext.user w /\
      AuthContext.localStorage w' = AuthContext.localStorage w /\
      m <> "".
Proof.
  intros w i email password err H. simpl. rewrite H. simpl.
  eexists _, _. split; [reflexivity|].
  repeat split. now apply or_else_nonempty.
Qed.

(** ** The admin query of [auth.ts] *)
Section AdminQuery.
Context {json : JSON}.

Lemma getCurrentUser_absent (storage : gmap string string) :
  storage !! "user" = None -> Auth.getCurrentUser storage = Ok None.
Proof. intros H. unfold Auth.getCurrentUser. now rewrite H. Qed.

Lemma isAdmin_true_iff (storage : gmap string string) :
  Auth.isAdmin storage = Ok true <->
  exists u, Auth.getCurrentUser storage = Ok (Some u) /\ is_admin u = true.
Proof.
  unfold Auth.isAdmin.
  destruct (Auth.getCurrentUser storage) as [[u|]|e]; split.
  - intros [= H]. eauto.
  - intros (u' & [= <-] & H). now rewrite H.
  - discriminate.
  - intros (u & [=] & _).
  - discriminate.
  - intros (u & [=] & _).
Qed.

Lemma getCurrentUser_ignores_token_write (t : string) (storage : gmap string string) :
  Auth.getCurrentUser (<["token" := t]> storage) = Auth.getCurrentUser storage.
Proof. unfold Auth.getCurrentUser. now rewrite lookup_insert_ne. Qed.

Lemma getCurrentUser_ignores_token_removal (storage : gmap string string) :
  Auth.getCurrentUser (delete "token" storage) = Auth.getCurrentUser storage.
Proof. unfold Auth.getCurrentUser. now rewrite lookup_delete_ne. Qed.

End AdminQuery.

(** C2, as the code has it, over the raw storage.  [isAdmin()] is true
    exactly when ['user'] holds a non-empty text that parses to a user
    record with [is_admin] true.  It is false, and not an error, when the
    key is missing, when the text is empty, when it parses to [null] or to
    a record that is no administrator's; it throws only on a text that
    [JSON.parse] rejects.  The token is never read: writing or removing it
    does not change the answer, so a stored administrator gives true even
    with no token.  In a state where a stored user implies a stored token,
    this is the same as: token present and user present with [is_admin]
    true. *)
Theorem isAdmin_reads_only_the_user_record :
  forall (json : JSON) (storage : gmap string string),
    (Auth.isAdmin storage = Ok true <->
     exists s u, storage !! "user" = Some s /\ s <> "" /\
                 JSON_parse s = Some (Some u) /\ is_admin u = true) /\
    (Auth.isAdmin storage = Ok false <->
     storage !! "user" = None \/ storage !! "user" = Some "" \/
     exists s, storage !! "user" = Some s /\ s <> "" /\
               (JSON_parse s = Some None \/
                exists u, JSON_parse s = Some (Some u) /\ is_admin u = false)) /\
    (forall e, Auth.isAdmin storage = Throw e <->
     exists s, storage !! "user" = Some s /\ s <> "" /\
               JSON_parse s = None /\ e = Error "SyntaxError") /\
    (forall t, Auth.isAdmin (<["token" := t]> storage) = Auth.isAdmin storage) /\
    Auth.isAdmin (delete "token" storage) = Auth.isAdmin storage /\
    ((storage !! "user" <> None -> Auth.isAuthenticated storage = true) ->
     (Auth.isAdmin storage = Ok true <->
      Auth.isAuthenticated storage = true /\
      exists s u, storage !! "user" = Some s /\ s <> "" /\
                  JSON_parse s = Some (Some u) /\ is_admin u = true)).
Proof.
  intros json storage.
  assert (Htrue : Auth.isAdmin storage = Ok true <->
     exists s u, storage !! "user" = Some s /\ s <> "" /\
                 JSON_parse s = Some (Some u) /\ is_admin u = true).
  { unfold Auth.isAdmin, Auth.getCurrentUser.
    destruct (storage !! "user") as [s|]; [|split; [discriminate | now intros (? & ? & [=] & _)]].
    destruct (truthy_str s) eqn:Et.
    - apply truthy_str_true in Et.
      destruct (JSON_parse s) as [[u|]|] eqn:Ep.
      + split.
        * intros [= Ha]. now exists s, u.
        * intros (s' & u' & [= <-] & _ & Hp & Ha). rewrite Ep in Hp.
          injection Hp as <-. now rewrite Ha.
      + split; [discriminate|].
        intros (s' & u' & [= <-] & _ & Hp & _). rewrite Ep in Hp. discriminate.
      + split; [discriminate|].
        intros (s' & u' & [= <-] & _ & Hp & _). rewrite Ep in Hp. discriminate.
    - apply truthy_str_false in Et. subst s. split; [discriminate|].
      intros (s' & u' & [= <-] & Hne & _). now destruct Hne. }
  split; [exact Htrue|]. split; [|split; [|split; [|split]]].
  - unfold Auth.isAdmin, Auth.getCurrentUser.
    destruct (storage !! "user") as [s|]; [|split; [now left | reflexivity]].
    destruct (truthy_str s) eqn:Et.
    + apply truthy_str_true in Et.
      destruct (JSON_parse s) as [[u|]|] eqn:Ep.
      * split.
        -- intros [= Ha]. right; right. exists s. repeat split; try assumption.
           right. now exists u.
        -- intros [[=] | [[= ->] | (s' & [= <-] & _ & [Hp | (u' & Hp & Ha)])]].
           ++ now destruct Et.
           ++ rewrite Ep in Hp. discriminate.
           ++ rewrite Ep in Hp. injection Hp as <-. now rewrite Ha.
      * split; [|reflexivity]. intros _. right; right. exists s. repeat split; try assumption.
        now left.
      * split; [discriminate|].
        intros [[=] | [[= ->] | (s' & [= <-] & _ & [Hp | (u' & Hp & _)])]].
        -- now destruct Et.
        -- rewrite Ep in Hp. discriminate.
        -- rewrite Ep in Hp. discriminate.
    + apply truthy_str_false in Et. subst s. split; [|reflexivity]. intros _. right; now left.
  - intros e. unfold Auth.isAdmin, Auth.getCurrentUser.
    destruct (storage !! "user") as [s|]; [|split; [discriminate | now intros (? & [=] & _)]].
    destruct (truthy_str s) eqn:Et.
    + apply truthy_str_true in Et.
      destruct (JSON_parse s) as [[u|]|] eqn:Ep.
      * split; [discriminate|]. intros (s' & [= <-] & _ & Hp & _).
        rewrite Ep in Hp. discriminate.
      * split; [discriminate|]. intros (s' & [= <-] & _ & Hp & _).
        rewrite Ep in Hp. discriminate.
      * split.
        -- intros [= <-]. now exists s.
        -- now intros (s' & _ & _ & _ & ->).
    + apply truthy_str_false in Et. subst s. split; [discriminate|].
      intros (s' & [= <-] & Hne & _). now destruct Hne.
  - intros t. unfold Auth.isAdmin. now rewrite getCurrentUser_ignores_token_write.
  - unfold Auth.isAdmin. now rewrite getCurrentUser_ignores_token_removal.
  - intros Hinv. rewrite Htrue. split.
    + intros (s & u & Hs & Hne & Hp & Ha). split; [|now exists s, u].
      apply Hinv. now rewrite Hs.
    + now intros (_ & H).
Qed.

(** A stored text that is the JSON of [null]: the user is absent and
    [isAdmin()] is false, with or without a token. *)
Example isAdmin_on_stored_null :
  Auth.getCurrentUser (json := UserJson.json) {[ "user" := "null" ]} = Ok None /\
  Auth.isAdmin (json := UserJson.json) {[ "user" := "null" ]} = Ok false /\
  Auth.isAdmin (json := UserJson.json) {[ "user" := "null"; "token" := "tok1" ]} = Ok false /\
  Auth.isAdmin (json := UserJson.json) {[ "user" := "{" ]} = Throw (Error "SyntaxError").
Proof. vm_compute. repeat split; reflexivity. Qed.

(** C2, as stated, fails.  [saveUser] stores the token and the record of an
    administrator; the provider, mounted on that storage, logs out, which
    removes ['token'] and leaves ['user'].  Then [isAdmin()] is true
    although no token is present and [isAuthenticated()] is false. *)
Lemma isAdmin_true_without_token :
  let r := ApiAuth.mkAuthResponse (Some "tok1") Sample.root in
  let w := AuthContext.mount (Auth.saveUser (json := UserJson.json) r ∅) None in
  let storage := AuthContext.localStorage (AuthContext.logout w) in
  storage = {[ "user" := UserJson.stringify Sample.root ]} /\
  Auth.getToken storage = None /\
  Auth.isAuthenticated storage = false /\
  Auth.isAdmin (json := UserJson.json) storage = Ok true /\
  ~ (Auth.isAdmin (json := UserJson.json) storage = Ok true <->
     Auth.isAuthenticated storage = true /\
     exists u, Auth.getCurrentUser (json := UserJson.json) storage = Ok (Some u)
               /\ is_admin u = true).
Proof.
  intros r w storage.
  assert (Hs : storage = {[ "user" := UserJson.stringify Sample.root ]})
    by (vm_compute; reflexivity).
  rewrite Hs.
  assert (Ha : Auth.isAdmin (json := UserJson.json)
                 {[ "user" := UserJson.stringify Sample.root ]} = Ok true)
    by (vm_compute; reflexivity).
  assert (Hi : Auth.isAuthenticated
                 ({[ "user" := UserJson.stringify Sample.root ]} : gmap string string) = false)
    by (vm_compute; reflexivity).
  repeat split; try assumption; try reflexivity.
  intros [H _]. destruct (H Ha) as [Hc _]. rewrite Hi in Hc. discriminate.
Qed.

(** ** The provider: effects, renders and the synchronisation invariant *)
Section Provider.
Import ApiAuth AuthContext Session.

Lemma credential_truthy (t : string) :
  t <> "" -> credential (Some t) = Some (Bearer t).
Proof. intros H. simpl. apply truthy_str_true in H. now rewrite H. Qed.

Lemma persisted_truthy (t : string) : t <> "" -> persisted (Some t) = Some t.
Proof. intros H. unfold persisted; simpl. apply truthy_str_true in H. now rewrite H. Qed.

Lemma token_loadUser (w : World) : token (loadUser w) = token w.
Proof.
  unfold loadUser.
  destruct (token w) as [t|] eqn:E; [destruct (truthy_str t)|]; exact E.
Qed.

Lemma token_syncEffect (w : World) : token (syncEffect w) = token w.
Proof.
  unfold syncEffect.
  destruct (token w) as [t|] eqn:E; [destruct (truthy_str t)|]; exact E.
Qed.

Lemma token_runEffects (w : World) : token (runEffects w) = token w.
Proof. unfold runEffects. now rewrite token_loadUser, token_syncEffect. Qed.

Lemma user_runEffects (w : World) : user (runEffects w) = user w.
Proof.
  unfold runEffects, loadUser. rewrite token_syncEffect. unfold syncEffect.
  destruct (token w) as [t|]; [destruct (truthy_str t)|]; reflexivity.
Qed.

Lemma navigations_runEffects (w : World) : navigations (runEffects w) = navigations w.
Proof.
  unfold runEffects, loadUser. rewrite token_syncEffect. unfold syncEffect.
  destruct (token w) as [t|]; [destruct (truthy_str t)|]; reflexivity.
Qed.

Lemma token_render (prev : option string) (w : World) : token (render prev w) = token w.
Proof. unfold render. case_decide; [reflexivity | apply token_runEffects]. Qed.

Lemma user_render (prev : option string) (w : World) : user (render prev w) = user w.
Proof. unfold render. case_decide; [reflexivity | apply user_runEffects]. Qed.

Lemma navigations_render (prev : option string) (w : World) :
  navigations (render prev w) = navigations w.
Proof. unfold render. case_decide; [reflexivity | apply navigations_runEffects]. Qed.

(** The effects touch [localStorage] at ['token'] only. *)
Lemma storage_runEffects (k : string) (w : World) :
  k <> "token" -> localStorage (runEffects w) !! k = localStorage w !! k.
Proof.
  intros Hk. unfold runEffects, loadUser. rewrite token_syncEffect. unfold syncEffect.
  destruct (token w) as [t|]; [destruct (truthy_str t)|]; simpl;
    rewrite ?lookup_insert_ne, ?lookup_delete_ne by congruence; reflexivity.
Qed.

Lemma storage_render (k : string) (prev : option string) (w : World) :
  k <> "token" -> localStorage (render prev w) !! k = localStorage w !! k.
Proof. intros Hk. unfold render. case_decide; [reflexivity | now apply storage_runEffects]. Qed.

(** Running the effects brings credential and storage in line with [token]. *)
Lemma synced_runEffects (w : World) : synced (runEffects w).
Proof.
  unfold synced, runEffects, loadUser. rewrite token_syncEffect.
  unfold syncEffect, persisted, credential, truthy.
  destruct (token w) as [t|] eqn:Et; [destruct (truthy_str t) eqn:Ett|]; simpl;
    unfold token; simpl; fold (token w); rewrite Et; simpl; rewrite ?Ett;
    rewrite ?lookup_insert_eq, ?lookup_delete_eq; split; reflexivity.
Qed.

Lemma synced_render (prev : option string) (w : World) :
  (prev = token w -> synced w) -> synced (render prev w).
Proof. intros H. unfold render. case_decide; [now apply H | apply synced_runEffects]. Qed.

(** A render leaves a world alone or runs the effects on it. *)
Lemma render_cases (prev : option string) (w : World) :
  (prev = token w /\ render prev w = w) \/
  (prev <> token w /\ render prev w = runEffects w).
Proof. unfold render. case_decide; [left | right]; now split. Qed.

End Provider.

Section ProviderSteps.
Import ApiAuth AuthContext Session.

Lemma synced_same (w w1 : World) :
  token w1 = token w ->
  axios_Authorization w1 = axios_Authorization w ->
  localStorage w1 !! "token" = localStorage w !! "token" ->
  synced w -> synced w1.
Proof. unfold synced. intros -> -> ->. auto. Qed.

(** Every event splits into the cases of the operations it runs. *)
Ltac handle_inv H :=
  match type of H with
  | handle ?ev ?w = Some _ =>
      destruct ev as [?e ?p|?e ?p| |?i ?o]; simpl in H;
      [ | | | let c := fresh "c" in
              destruct (pending w !! i) as [c|] eqn:?;
              [destruct c, o; simpl in H|]; try discriminate H ];
      injection H as <- <-
  end.

Lemma synced_authenticated (prev : World) (r : AuthResponse) (w : World) :
  token prev = token w ->
  synced w ->
  synced (render (token prev) (upd (setLoading false) (handleAuthResponse r w))).
Proof.
  intros Hp Hs. apply synced_render. intros Heq.
  refine (synced_same w _ _ _ _ Hs); try reflexivity.
  rewrite <- Hp. symmetry. exact Heq.
Qed.

Lemma synced_logout (w : World) : synced w -> synced (logout w).
Proof.
  intros [Ha Hl]. unfold logout. apply synced_render. intros Heq.
  split; simpl.
  - rewrite Ha, Heq. reflexivity.
  - apply lookup_delete_eq.
Qed.

Lemma synced_loadUser_catch (w : World) : synced w -> synced (loadUser_catch w).
Proof.
  intros Hs. unfold loadUser_catch. apply synced_render. intros Heq.
  refine (synced_same w _ _ _ _ Hs); try reflexivity. symmetry. exact Heq.
Qed.

(** Every event keeps credential and storage in line with [token]. *)
Lemma synced_step (ev : Event) (w w' : World) (r : Res unit) :
  handle ev w = Some (w', r) -> synced w -> synced w'.
Proof.
  intros H Hs. handle_inv H.
  - exact Hs.
  - exact Hs.
  - now apply synced_logout.
  - exact Hs.
  - now apply (synced_authenticated (retire i w)).
  - exact Hs.
  - now apply (synced_authenticated (retire i w)).
  - now apply (synced_loadUser_catch (retire i w)).
  - exact Hs.
Qed.

Lemma synced_mount (storage : gmap string string) (axios0 : option string) :
  synced (mount storage axios0).
Proof. apply synced_runEffects. Qed.

Lemma reachable_synced (w : World) : reachable w -> synced w.
Proof.
  induction 1 as [storage axios0 | ev w w' r _ IH H].
  - apply synced_mount.
  - exact (synced_step ev w w' r H IH).
Qed.

(** An event that changes [token] runs the effects, from any world. *)
Lemma token_change_syncs (ev : Event) (w w' : World) (r : Res unit) :
  handle ev w = Some (w', r) -> token w' <> token w -> synced w'.
Proof.
  intros H Hne.
  assert (Hr : forall prev w1, token prev = token w ->
             token (render (token prev) w1) <> token w -> synced (render (token prev) w1)).
  { intros prev w1 Hp Hn.
    destruct (render_cases (token prev) w1) as [[Heq Hw] | [_ Hw]]; rewrite Hw in *.
    - exfalso. apply Hn. now rewrite <- Heq.
    - apply synced_runEffects. }
  handle_inv H; try (exfalso; apply Hne; reflexivity).
  - now apply (Hr w).
  - now apply (Hr (retire i w)).
  - now apply (Hr (retire i w)).
  - now apply (Hr (retire i w)).
Qed.

(** An event writes [localStorage] at ['token'] only. *)
Lemma storage_step (ev : Event) (w w' : World) (r : Res unit) (k : string) :
  handle ev w = Some (w', r) -> k <> "token" ->
  localStorage w' !! k = localStorage w !! k.
Proof.
  intros H Hk. handle_inv H; try reflexivity.
  - unfold logout. rewrite storage_render by exact Hk. simpl.
    now rewrite lookup_delete_ne.
  - now rewrite storage_render.
  - now rewrite storage_render.
  - unfold loadUser_catch. now rewrite storage_render.
Qed.

End ProviderSteps.

(** ** The credential on outgoing requests *)
Section Credential.
Import ApiAuth AuthContext Session.

(** [apiRequest] reads the stored token at every call and puts its
    credential on the request, unless the caller's own headers override it. *)
Lemma apiRequest_Authorization (endpoint : string) (options : Api.RequestInit)
    (storage : gmap string string) :
  Api.headers options !! "Authorization" = None ->
  Api.headers (Api.init (Api.apiRequest_begin endpoint options storage)) !! "Authorization"
  = credential (storage !! "token").
Proof.
  intros Ho. unfold Api.apiRequest_begin; simpl.
  rewrite lookup_union_r by exact Ho. unfold credential.
  destruct (storage !! "token") as [t|]; [destruct (truthy_str t)|].
  - apply lookup_union_Some_l. apply lookup_singleton_eq.
  - rewrite lookup_union_r by apply lookup_empty. now apply lookup_singleton_ne.
  - rewrite lookup_union_r by apply lookup_empty. now apply lookup_singleton_ne.
Qed.

Lemma credential_persisted (tok : option string) :
  credential (persisted tok) = credential tok.
Proof.
  unfold persisted. destruct tok as [t|]; simpl; [|reflexivity].
  destruct (truthy_str t) eqn:Et; simpl; now rewrite ?Et.
Qed.

End Credential.

(** ** Successful login *)
Section LoginSuccess.
Import ApiAuth AuthContext Session.
Context {json : JSON}.

Lemma saveUser_with_token (r : AuthResponse) (t : string) (storage : gmap string string) :
  ApiAuth.token r = Some t -> t <> "" ->
  Auth.saveUser r storage
  = <["user" := JSON_stringify (ApiAuth.user r)]> (<["token" := t]> storage).
Proof.
  intros Ht Hne. unfold Auth.saveUser. rewrite Ht.
  apply truthy_str_true in Hne. now rewrite Hne.
Qed.

Lemma isAuthenticated_stored (storage : gmap string string) (t : string) :
  storage !! "token" = Some t -> t <> "" -> Auth.isAuthenticated storage = true.
Proof.
  intros Hs Hne. unfold Auth.isAuthenticated, Auth.getToken. rewrite Hs.
  now apply truthy_str_true.
Qed.

(** A successful answer to a pending login, whenever it arrives: the
    response's token and user become the session's, and the effects persist
    the token and set the credential. *)
Lemma login_answered_any_time (w : World) (i : nat) (email password : string)
    (r : AuthResponse) (t : string) :
  synced w -> pending w !! i = Some (PostLogin email password) ->
  ApiAuth.token r = Some t -> t <> "" ->
  exists w',
    handle (Settle i (AuthData r)) w = Some (w', Ok tt) /\
    token w' = Some t /\
    user w' = Some (ApiAuth.user r) /\
    localStorage w' !! "token" = Some t /\
    axios_Authorization w' = Some (Bearer t).
Proof.
  intros Hs Hp Ht Hne. simpl. rewrite Hp. simpl. unfold login_then.
  eexists. split; [reflexivity|].
  set (w0 := retire i w).
  assert (Hs' : synced (render (token w0) (upd (setLoading false) (handleAuthResponse r w0)))).
  { apply (synced_authenticated w0); [reflexivity|exact Hs]. }
  destruct Hs' as [Ha Hl].
  rewrite token_render in Ha, Hl. simpl in Ha, Hl.
  rewrite token_render, user_render.
  change (token (upd (setLoading false) (handleAuthResponse r w0))) with (ApiAuth.token r) in *.
  rewrite Ht in *.
  rewrite (credential_truthy t Hne) in Ha. rewrite (persisted_truthy t Hne) in Hl.
  repeat split; assumption || reflexivity.
Qed.

(** The same for a [login] answered at once. *)
Lemma provider_login_success (w : World) (email password : string)
    (r : AuthResponse) (t : string) :
  synced w -> ApiAuth.token r = Some t -> t <> "" ->
  exists w',
    login email password (AuthData r) w = Some (w', Ok tt) /\
    token w' = Some t /\
    user w' = Some (ApiAuth.user r) /\
    localStorage w' !! "token" = Some t /\
    axios_Authorization w' = Some (Bearer t).
Proof.
  intros Hs Ht Hne. unfold login.
  apply (login_answered_any_time _ _ email password r t); try assumption.
  now apply list_lookup_middle.
Qed.

End LoginSuccess.

(** C4, as the code has it: when the login collaborator answers with a
    payload whose [token] is a non-empty string, then once [login] has
    completed the token is the session's token, the session's user is the
    payload's user, the token is in durable storage and [isAuthenticated()]
    is true.  This holds for the provider in any state it can reach, and for
    [loginUser] of [auth.ts], whose user is read back from storage (given
    that [JSON.parse] undoes [JSON.stringify] on the payload's user). *)
Theorem login_success_authenticates :
  forall (json : JSON) (w : AuthContext.World) (b : Auth.Browser)
         (email password : string) (r : ApiAuth.AuthResponse) (t : string),
    AuthContext.reachable w ->
    ApiAuth.token r = Some t ->
    t <> "" ->
    JSON_parse (JSON_stringify (ApiAuth.user r)) = Some (Some (ApiAuth.user r)) ->
    JSON_stringify (ApiAuth.user r) <> "" ->
    (exists w',
       AuthContext.login email password (ApiAuth.AuthData r) w = Some (w', Ok tt) /\
       AuthContext.token w' = Some t /\
       AuthContext.user w' = Some (ApiAuth.user r) /\
       AuthContext.localStorage w' !! "token" = Some t /\
       Auth.isAuthenticated (AuthContext.localStorage w') = true) /\
    (exists b',
       Auth.loginUser_then (Api.IsOk r) b = (b', Ok (ApiAuth.user r)) /\
       Auth.localStorage b' !! "token" = Some t /\
       Auth.isAuthenticated (Auth.localStorage b') = true /\
       Auth.getCurrentUser (Auth.localStorage b') = Ok (Some (ApiAuth.user r))).
Proof.
  intros json w b email password r t Hr Ht Hne Hrt Hse. split.
  - destruct (provider_login_success w email password r t
                (reachable_synced w Hr) Ht Hne) as (w' & Hl & Htok & Hu & Hs & _).
    exists w'. repeat split; try assumption.
    now apply (isAuthenticated_stored _ t).
  - unfold Auth.loginUser_then; simpl. eexists. split; [reflexivity|]. simpl.
    rewrite (saveUser_with_token r t _ Ht Hne).
    assert (Hs : (<["user" := JSON_stringify (ApiAuth.user r)]>
                    (<["token" := t]> (Auth.localStorage b)) : gmap string string)
                 !! "token" = Some t).
    { rewrite lookup_insert_ne by discriminate. apply lookup_insert_eq. }
    split; [exact Hs|]. split; [now apply (isAuthenticated_stored _ t)|].
    unfold Auth.getCurrentUser. rewrite lookup_insert_eq.
    apply truthy_str_true in Hse. now rewrite Hse, Hrt.
Qed.

Lemma login_success_authenticates_witness :
  let w := AuthContext.mount ∅ None in
  let b := Auth.mkBrowser ∅ [] in
  let r := ApiAuth.mkAuthResponse (Some "tok1") Sample.alice in
  AuthContext.reachable w /\
  (exists w',
     AuthContext.login "a@b.com" "secret" (ApiAuth.AuthData r) w = Some (w', Ok tt) /\
     AuthContext.token w' = Some "tok1" /\
     AuthContext.user w' = Some Sample.alice /\
     AuthContext.localStorage w' !! "token" = Some "tok1" /\
     Auth.isAuthenticated (AuthContext.localStorage w') = true) /\
  (exists b',
     Auth.loginUser_then (json := UserJson.json) (Api.IsOk r) b = (b', Ok Sample.alice) /\
     Auth.localStorage b' !! "token" = Some "tok1" /\
     Auth.isAuthenticated (Auth.localStorage b') = true /\
     Auth.getCurrentUser (json := UserJson.json) (Auth.localStorage b') = Ok (Some Sample.alice)).
Proof.
  intros w b r. split; [apply AuthContext.reachable_mount|].
  apply (login_success_authenticates UserJson.json w b "a@b.com" "secret" r "tok1").
  - apply AuthContext.reachable_mount.
  - reflexivity.
  - discriminate.
  - vm_compute. reflexivity.
  - vm_compute. discriminate.
Defined.

(** C4, as stated, fails: a success payload whose [token] is the empty
    string completes [login] normally and sets the user, yet nothing is
    persisted and nobody is authenticated; [loginUser] likewise stores
    nothing. *)
Lemma login_with_empty_token_not_authenticated :
  let r := ApiAuth.mkAuthResponse (Some "") Sample.alice in
  (exists w',
     AuthContext.login "a@b.com" "secret" (ApiAuth.AuthData r) (AuthContext.mount ∅ None)
       = Some (w', Ok tt) /\
     AuthContext.user w' = Some Sample.alice /\
     truthy (AuthContext.token w') = false /\
     AuthContext.localStorage w' !! "token" = None /\
     Auth.isAuthenticated (AuthContext.localStorage w') = false) /\
  (exists b',
     Auth.loginUser_then (json := UserJson.json) (Api.IsOk r) (Auth.mkBrowser ∅ [])
       = (b', Ok Sample.alice) /\
     Auth.localStorage b' !! "token" = None /\
     Auth.isAuthenticated (Auth.localStorage b') = false).
Proof.
  intros r. split.
  - eexists. split; [reflexivity|]. vm_compute. repeat split; reflexivity.
  - eexists. split; [reflexivity|]. vm_compute. repeat split; reflexivity.
Qed.

(** ** Restoring a session *)
Section Restore.
Import ApiAuth AuthContext Session.

(** Mounting with a stored token: the token is the state's, the credential
    is set, and one profile request is on its way. *)
Lemma mount_with_token (storage : gmap string string) (axios0 : option string) (t : string) :
  storage !! "token" = Some t -> t <> "" ->
  mount storage axios0
  = mkWorld (mkState None (Some t) true None) (<["token" := t]> storage)
      (Some (Bearer t)) [GetMe (Bearer t)] [GetMe (Bearer t)] [].
Proof.
  intros Hs Hne. apply truthy_str_true in Hne.
  unfold mount, runEffects, syncEffect, loadUser, token; simpl.
  rewrite Hs, Hne; simpl. rewrite Hne. reflexivity.
Qed.

(** Mounting without a usable token: nothing is requested. *)
Lemma mount_without_token (storage : gmap string string) (axios0 : option string) :
  truthy (storage !! "token") = false ->
  mount storage axios0
  = mkWorld (mkState None (storage !! "token") false None) (delete "token" storage)
      None [] [] [].
Proof.
  intros Hf.
  unfold mount, runEffects, syncEffect, loadUser, token; simpl.
  destruct (storage !! "token") as [t|]; simpl in *; [rewrite Hf; simpl; rewrite Hf|];
    reflexivity.
Qed.

Lemma failed_restore (storage : gmap string string) (axios0 : option string)
    (t : string) (err : AxiosError) :
  storage !! "token" = Some t -> t <> "" ->
  handle (Settle 0 (Rejected err)) (mount storage axios0)
  = Some (mkWorld (mkState None None false None)
            (delete "token" (<["token" := t]> storage)) None [GetMe (Bearer t)] [] [],
          Ok tt).
Proof.
  intros Hs Hne. rewrite (mount_with_token storage axios0 t Hs Hne).
  reflexivity.
Qed.

End Restore.

(** C5: when the token found in storage at start-up is rejected by the
    profile request, whatever the error, the provider ends logged out:
    no token, no user, no persisted token, no default credential, [loading]
    false.  [loadUser] completes normally, and the one profile request that
    was sent is the only one: nothing is pending afterwards.
    [fetchUserProfile] of [auth.ts] behaves alike: it returns [null], never
    rejects, and leaves neither ['token'] nor ['user'] in storage. *)
Theorem failed_restore_logs_out :
  forall (json : JSON) (storage : gmap string string) (axios0 : option string)
         (t : string) (err : ApiAuth.AxiosError)
         (b : Auth.Browser) (o : Api.Outcome (option User)) (e : JsError),
    storage !! "token" = Some t ->
    t <> "" ->
    Api.apiRequest_then o = Throw e ->
    (AuthContext.calls (AuthContext.mount storage axios0)
       = [ApiAuth.GetMe (Bearer t)] /\
     exists w',
       AuthContext.handle (AuthContext.Settle 0 (ApiAuth.Rejected err))
         (AuthContext.mount storage axios0) = Some (w', Ok tt) /\
       AuthContext.token w' = None /\
       AuthContext.user w' = None /\
       AuthContext.localStorage w' !! "token" = None /\
       AuthContext.axios_Authorization w' = None /\
       AuthContext.loading w' = false /\
       AuthContext.calls w' = [ApiAuth.GetMe (Bearer t)] /\
       AuthContext.pending w' = []) /\
    (exists b',
       Auth.fetchUserProfile_then o b = (b', Ok None) /\
       Auth.localStorage b' !! "token" = None /\
       Auth.localStorage b' !! "user" = None /\
       Auth.isAuthenticated (Auth.localStorage b') = false /\
       Auth.getCurrentUser (Auth.localStorage b') = Ok None).
Proof.
  intros json storage axios0 t err b o e Hs Hne Ho. split.
  - split; [now rewrite (mount_with_token storage axios0 t Hs Hne)|].
    eexists. split; [exact (failed_restore storage axios0 t err Hs Hne)|].
    repeat split. simpl. apply lookup_delete_eq.
  - unfold Auth.fetchUserProfile_then. rewrite Ho.
    eexists. split; [reflexivity|].
    assert (Ht : Auth.localStorage (Auth.logout false b) !! "token" = None).
    { simpl. rewrite lookup_delete_ne by discriminate. apply lookup_delete_eq. }
    assert (Hu : Auth.localStorage (Auth.logout false b) !! "user" = None).
    { simpl. apply lookup_delete_eq. }
    split; [exact Ht|]. split; [exact Hu|]. split.
    + unfold Auth.isAuthenticated, Auth.getToken. now rewrite Ht.
    + now apply getCurrentUser_absent.
Qed.

Lemma failed_restore_logs_out_witness :
  let storage : gmap string string := {[ "token" := "tok1" ]} in
  let b := Auth.mkBrowser (<["user" := UserJson.stringify Sample.alice]> storage) [] in
  let o : Api.Outcome (option User) := Api.NotOk (mkErrorBody (Some "Unauthorized")) in
  storage !! "token" = Some "tok1" /\
  Api.apiRequest_then o = Throw (Error "Unauthorized") /\
  (exists w',
     AuthContext.handle (AuthContext.Settle 0 (ApiAuth.Rejected Sample.unauthorized))
       (AuthContext.mount storage None) = Some (w', Ok tt) /\
     AuthContext.token w' = None /\
     AuthContext.user w' = None /\
     AuthContext.localStorage w' !! "token" = None /\
     AuthContext.axios_Authorization w' = None /\
     AuthContext.loading w' = false /\
     AuthContext.calls w' = [ApiAuth.GetMe "Bearer tok1"] /\
     AuthContext.pending w' = []) /\
  (exists b',
     Auth.fetchUserProfile_then (json := UserJson.json) o b = (b', Ok None) /\
     Auth.localStorage b' !! "token" = None /\
     Auth.localStorage b' !! "user" = None /\
     Auth.isAuthenticated (Auth.localStorage b') = false /\
     Auth.getCurrentUser (json := UserJson.json) (Auth.localStorage b') = Ok None).
Proof.
  intros storage b o. split; [reflexivity|]. split; [reflexivity|].
  destruct (failed_restore_logs_out UserJson.json storage None "tok1"
              Sample.unauthorized b o (Error "Unauthorized"))
    as [[_ Hw] Hb]; [reflexivity | discriminate | reflexivity |].
  split; [exact Hw | exact Hb].
Defined.

(** ** What is kept in durable storage *)

(** C6, as the code has it: the provider keeps exactly one key in durable
    storage, ['token'], holding the current token as a string (and nothing
    when there is no token); no event and no mount writes any other key.
    It never reads a profile from storage: a mounted provider has no user
    until the profile request, sent for the stored token, is answered.  The
    standalone module [auth.ts] does persist the profile: [saveUser] writes
    it under ['user'] next to ['token'], and [getCurrentUser] reads it back
    from there. *)
Theorem provider_persists_only_token :
  forall (json : JSON) (w : AuthContext.World),
    AuthContext.reachable w ->
    AuthContext.localStorage w !! "token" = Session.persisted (AuthContext.token w) /\
    (forall ev w' r k,
       AuthContext.handle ev w = Some (w', r) -> k <> "token" ->
       AuthContext.localStorage w' !! k = AuthContext.localStorage w !! k) /\
    (forall storage axios0,
       AuthContext.user (AuthContext.mount storage axios0) = None /\
       (forall k, k <> "token" ->
          AuthContext.localStorage (AuthContext.mount storage axios0) !! k = storage !! k) /\
       (forall t, storage !! "token" = Some t -> t <> "" ->
          AuthContext.pending (AuthContext.mount storage axios0)
          = [ApiAuth.GetMe (Bearer t)])) /\
    (forall r t storage,
       ApiAuth.token r = Some t -> t <> "" ->
       Auth.saveUser r storage !! "token" = Some t /\
       Auth.saveUser r storage !! "user" = Some (JSON_stringify (ApiAuth.user r)) /\
       (forall k, k <> "token" -> k <> "user" -> Auth.saveUser r storage !! k = storage !! k)).
Proof.
  intros json w Hr. split; [apply (reachable_synced w Hr)|].
  split. { intros ev w' r k H Hk. exact (storage_step ev w w' r k H Hk). }
  split.
  - intros storage axios0. split; [apply user_runEffects|]. split.
    + intros k Hk. unfold AuthContext.mount. now rewrite storage_runEffects.
    + intros t Hs Hne. now rewrite (mount_with_token storage axios0 t Hs Hne).
  - intros r t storage Ht Hne. rewrite (saveUser_with_token r t storage Ht Hne).
    split; [rewrite lookup_insert_ne by discriminate; apply lookup_insert_eq|].
    split; [apply lookup_insert_eq|].
    intros k Hk Hu. now rewrite !lookup_insert_ne by congruence.
Qed.

Lemma provider_persists_only_token_witness :
  let w := AuthContext.mount {[ "token" := "tok1" ]} None in
  AuthContext.reachable w /\
  AuthContext.localStorage w !! "token" = Session.persisted (AuthContext.token w).
Proof.
  intros w. split; [apply AuthContext.reachable_mount|].
  exact (proj1 (provider_persists_only_token UserJson.json w
                  (AuthContext.reachable_mount _ _))).
Defined.

(** C6, as stated, fails: after [saveUser] durable storage holds two keys,
    and the profile stored under ['user'] is what [getCurrentUser] returns,
    with no request to the collaborator. *)
Lemma saveUser_persists_the_profile :
  let r := ApiAuth.mkAuthResponse (Some "tok1") Sample.alice in
  let storage := Auth.saveUser (json := UserJson.json) r ∅ in
  storage !! "token" = Some "tok1" /\
  storage !! "user" = Some (UserJson.stringify Sample.alice) /\
  size storage = 2%nat /\
  Auth.getCurrentUser (json := UserJson.json) storage = Ok (Some Sample.alice).
Proof. intros r storage. vm_compute. repeat split; reflexivity. Qed.

(** ** Logging out *)

Lemma provider_logout_token (w : AuthContext.World) :
  AuthContext.localStorage (AuthContext.logout w) !! "token" = None.
Proof.
  unfold AuthContext.logout.
  destruct (render_cases (AuthContext.token w)
              (AuthContext.with_storage (delete "token")
                 (AuthContext.upd (AuthContext.setUser None)
                    (AuthContext.upd (AuthContext.setToken None) w))))
    as [[_ Hw] | [_ Hw]]; rewrite Hw.
  - simpl. apply lookup_delete_eq.
  - match goal with |- AuthContext.localStorage (AuthContext.runEffects ?w1) !! _ = _ =>
      destruct (synced_runEffects w1) as [_ Hl]; rewrite Hl end.
    rewrite token_runEffects. reflexivity.
Qed.

(** C8, as the code has it: both [logout] functions are total and, from any
    state, leave no token, no user and no persisted token, so
    [isAuthenticated()] is false.  [logout] of [auth.ts] also removes the
    stored profile and itself asks for the navigation to ['/login'].  The
    provider's [logout] asks for no navigation; its caller [handleLogout]
    navigates to ['/login'] right after it. *)
Theorem logout_clears_session :
  forall (json : JSON) (w : AuthContext.World) (b : Auth.Browser) (navigate : bool),
    (AuthContext.token (AuthContext.logout w) = None /\
     AuthContext.user (AuthContext.logout w) = None /\
     AuthContext.localStorage (AuthContext.logout w) !! "token" = None /\
     Auth.isAuthenticated (AuthContext.localStorage (AuthContext.logout w)) = false /\
     AuthContext.navigations (AuthContext.logout w) = AuthContext.navigations w) /\
    (AuthContext.token (Layout.handleLogout w) = None /\
     AuthContext.user (Layout.handleLogout w) = None /\
     AuthContext.localStorage (Layout.handleLogout w) !! "token" = None /\
     Session.sent_to_login (AuthContext.navigations (Layout.handleLogout w))) /\
    (Auth.localStorage (Auth.logout navigate b) !! "token" = None /\
     Auth.localStorage (Auth.logout navigate b) !! "user" = None /\
     Auth.isAuthenticated (Auth.localStorage (Auth.logout navigate b)) = false /\
     Auth.getCurrentUser (Auth.localStorage (Auth.logout navigate b)) = Ok None /\
     Session.sent_to_login (Auth.navigations (Auth.logout navigate b))).
Proof.
  intros json w b navigate.
  assert (Ht : AuthContext.token (AuthContext.logout w) = None)
    by (unfold AuthContext.logout; now rewrite token_render).
  assert (Hu : AuthContext.user (AuthContext.logout w) = None)
    by (unfold AuthContext.logout; now rewrite user_render).
  pose proof (provider_logout_token w) as Hl.
  split; [|split].
  - repeat split; try assumption.
    + unfold Auth.isAuthenticated, Auth.getToken. now rewrite Hl.
    + unfold AuthContext.logout. now rewrite navigations_render.
  - repeat split; try assumption.
    left. unfold Layout.handleLogout, Layout.navigate; simpl. apply last_snoc.
  - assert (Ht' : Auth.localStorage (Auth.logout navigate b) !! "token" = None).
    { destruct navigate; simpl;
        (rewrite lookup_delete_ne by discriminate); apply lookup_delete_eq. }
    assert (Hu' : Auth.localStorage (Auth.logout navigate b) !! "user" = None).
    { destruct navigate; simpl; apply lookup_delete_eq. }
    split; [exact Ht'|]. split; [exact Hu'|]. split; [|split].
    + unfold Auth.isAuthenticated, Auth.getToken. now rewrite Ht'.
    + now apply getCurrentUser_absent.
    + destruct navigate; [left | right]; simpl; apply last_snoc.
Qed.

(** C8, as stated, fails on the provider: its [logout] logs a mounted,
    authenticated session out without asking for any navigation. *)
Lemma provider_logout_does_not_navigate :
  let w := AuthContext.mount {[ "token" := "tok1" ]} None in
  AuthContext.token w = Some "tok1" /\
  AuthContext.token (AuthContext.logout w) = None /\
  AuthContext.navigations (AuthContext.logout w) = [] /\
  ~ Session.sent_to_login (AuthContext.navigations (AuthContext.logout w)).
Proof.
  intros w.
  assert (Hn : AuthContext.navigations (AuthContext.logout w) = []) by reflexivity.
  repeat split; try reflexivity.
  unfold Session.sent_to_login. rewrite Hn. simpl. intros [H | H]; discriminate.
Qed.

(** ** The session invariant *)

Lemma run_reachable (evs : list AuthContext.Event) (w w' : AuthContext.World) :
  AuthContext.reachable w -> AuthContext.run evs w = Some w' -> AuthContext.reachable w'.
Proof.
  revert w. induction evs as [|ev evs IH]; intros w Hr H; simpl in H.
  - now injection H as <-.
  - destruct (AuthContext.handle ev w) as [[w1 r]|] eqn:Hh; [|discriminate].
    apply (IH w1); [|exact H].
    exact (AuthContext.reachable_step ev w w1 r Hr Hh).
Qed.

(** C1 at its failing input: a provider mounted with empty storage, a
    [login] that succeeds with token ["tok1"], then the profile request
    that the new token triggers is rejected.  [loadUser]'s [catch] clears
    the token only: the state reached has a user and no token. *)
Theorem failed_refresh_after_login_keeps_user :
  let r := ApiAuth.mkAuthResponse (Some "tok1") Sample.alice in
  let trace :=
    [AuthContext.CallLogin "a@b.com" "secret";
     AuthContext.Settle 0 (ApiAuth.AuthData r);
     AuthContext.Settle 0 (ApiAuth.Rejected Sample.unauthorized)] in
  exists w,
    AuthContext.run trace (AuthContext.mount ∅ None) = Some w /\
    AuthContext.reachable w /\
    AuthContext.user w = Some Sample.alice /\
    AuthContext.token w = None /\
    AuthContext.localStorage w !! "token" = None /\
    ~ Session.user_only_with_token w.
Proof.
  intros r trace.
  destruct (AuthContext.run trace (AuthContext.mount ∅ None)) as [w|] eqn:Hrun;
    [|vm_compute in Hrun; discriminate].
  exists w. split; [reflexivity|]. split.
  - apply (run_reachable trace (AuthContext.mount ∅ None));
      [apply AuthContext.reachable_mount | exact Hrun].
  - vm_compute in Hrun. injection Hrun as <-.
    repeat split; try reflexivity.
    intros H. unfold Session.user_only_with_token in H.
    assert (Hc : truthy None = true) by (apply H; discriminate).
    discriminate.
Qed.

(** ** The scenarios of the specification *)

(** Token ["tok1"] persisted and the profile request answered with alice's
    record: after the restore the session is authenticated, not an
    administrator's, and the user has 5 credits. *)
Example restore_scenario :
  exists w,
    AuthContext.run [AuthContext.Settle 0 (ApiAuth.UserData Sample.alice)]
      (AuthContext.mount {[ "token" := "tok1" ]} None) = Some w /\
    Auth.isAuthenticated (AuthContext.localStorage w) = true /\
    AuthContext.token w = Some "tok1" /\
    is_admin <$> AuthContext.user w = Some false /\
    credits <$> AuthContext.user w = Some 5 /\
    AuthContext.loading w = false.
Proof. eexists. split; [reflexivity|]. vm_compute. repeat split; reflexivity. Qed.

(** [login("a@b.com", "bad")] answered 401 with
    [{message: "Invalid credentials"}]: the error is that message and the
    session stays logged out. *)
Example bad_password_scenario :
  exists w,
    AuthContext.login "a@b.com" "bad" (ApiAuth.Rejected Sample.unauthorized)
      (AuthContext.mount ∅ None)
    = Some (w, Throw (Error "Invalid credentials")) /\
    AuthContext.error w = Some "Invalid credentials" /\
    AuthContext.token w = None /\
    AuthContext.user w = None /\
    AuthContext.localStorage w = ∅.
Proof. eexists. split; [reflexivity|]. vm_compute. repeat split; reflexivity. Qed.

(** * Further properties of the session code *)

(** ** The provider: registration, restore and late answers *)

(** Splits an answered request into the cases of its continuation. *)
Ltac settle_inv H :=
  match type of H with
  | AuthContext.handle (AuthContext.Settle ?i ?o) ?w = Some _ =>
      simpl in H;
      let c := fresh "c" in
      destruct (AuthContext.pending w !! i) as [c|] eqn:?;
      [destruct c, o; simpl in H|]; try discriminate H;
      injection H as <- <-
  end.

Section ProviderMore.
Import ApiAuth AuthContext Session.

Lemma register_rejected (email password : string) (err : AxiosError) (w : World) :
  register email password (Rejected err) w
  = Some (register_catch err (retire (length (pending w)) (register_begin email password w))).
Proof.
  unfold register, handle, register_begin, issue; simpl.
  now rewrite list_lookup_middle.
Qed.

Lemma loading_runEffects (w : World) :
  loading w = false -> loading (runEffects w) = false.
Proof.
  intros H. unfold runEffects, loadUser. rewrite token_syncEffect. unfold syncEffect.
  destruct (token w) as [t|]; [destruct (truthy_str t)|]; simpl; try reflexivity; exact H.
Qed.

Lemma loading_render (prev : option string) (w : World) :
  loading w = false -> loading (render prev w) = false.
Proof.
  intros H. unfold render. case_decide; [exact H | now apply loading_runEffects].
Qed.

Lemma error_runEffects (w : World) : error (runEffects w) = error w.
Proof.
  unfold runEffects, loadUser. rewrite token_syncEffect. unfold syncEffect.
  destruct (token w) as [t|]; [destruct (truthy_str t)|]; reflexivity.
Qed.

Lemma error_render (prev : option string) (w : World) : error (render prev w) = error w.
Proof. unfold render. case_decide; [reflexivity | apply error_runEffects]. Qed.

(** With no token the effects send nothing. *)
Lemma pending_runEffects_no_token (w : World) :
  token w = None -> pending (runEffects w) = pending w.
Proof.
  intros H. unfold runEffects, loadUser. rewrite token_syncEffect. unfold syncEffect.
  rewrite H. reflexivity.
Qed.

Lemma pending_logout (w : World) : pending (logout w) = pending w.
Proof.
  unfold logout.
  match goal with |- pending (render _ ?w1) = _ =>
    destruct (render_cases (token w) w1) as [[_ Hw] | [_ Hw]]; rewrite Hw end.
  - reflexivity.
  - now rewrite pending_runEffects_no_token.
Qed.

(** What the effects add to the log of requests: nothing, or one profile
    request carrying the bearer of the current, non-empty token. *)
Lemma calls_runEffects (w : World) :
  calls (runEffects w) = calls w \/
  exists t, t <> "" /\ token w = Some t /\
            calls (runEffects w) = (calls w ++ [GetMe (Bearer t)])%list.
Proof.
  unfold runEffects, loadUser. rewrite token_syncEffect. unfold syncEffect.
  destruct (token w) as [t|] eqn:Et; [destruct (truthy_str t) eqn:Ett|].
  - right. exists t. split; [now apply truthy_str_true|]. split; reflexivity.
  - now left.
  - now left.
Qed.

Lemma calls_render (prev : option string) (w : World) :
  calls (render prev w) = calls w \/
  exists t, t <> "" /\ token w = Some t /\
            calls (render prev w) = (calls w ++ [GetMe (Bearer t)])%list.
Proof. unfold render. case_decide; [now left | apply calls_runEffects]. Qed.

(** A render sees only the state, the storage and the default credential:
    two worlds that agree on them still agree on them after it. *)
Lemma render_same_session (prev : option string) (w1 w2 : World) :
  state w1 = state w2 ->
  localStorage w1 = localStorage w2 ->
  axios_Authorization w1 = axios_Authorization w2 ->
  state (render prev w1) = state (render prev w2) /\
  localStorage (render prev w1) = localStorage (render prev w2) /\
  axios_Authorization (render prev w1) = axios_Authorization (render prev w2).
Proof.
  destruct w1 as [s1 l1 a1 c1 p1 n1], w2 as [[u tk l e] l2 a2 c2 p2 n2]; simpl.
  intros -> -> ->. unfold render, token; simpl.
  case_decide; [now repeat split|].
  unfold runEffects, loadUser, syncEffect, token; simpl.
  destruct tk as [t|]; [destruct (truthy_str t) eqn:Et|]; simpl;
    rewrite ?Et; now repeat split.
Qed.

End ProviderMore.

(** X1: a registration that the collaborator answers with a failure leaves
    [token], [user], [localStorage] and the default credential as they
    were, ends with [loading] false, and rejects with the message it also
    stores in [error]: the [message] of the rejection's payload
    ([err.response.data.message]) when it is there and not empty, and
    'Registration failed' when the response, its data or its message is
    missing or the message is empty. *)
Theorem register_failure_keeps_session :
  forall (w : AuthContext.World) (email password : string) (err : ApiAuth.AxiosError),
    exists w' m,
      AuthContext.register email password (ApiAuth.Rejected err) w
        = Some (w', Throw (Error m)) /\
      AuthContext.token w' = AuthContext.token w /\
      AuthContext.user w' = AuthContext.user w /\
      AuthContext.localStorage w' = AuthContext.localStorage w /\
      AuthContext.axios_Authorization w' = AuthContext.axios_Authorization w /\
      AuthContext.error w' = Some m /\
      AuthContext.loading w' = false /\
      m <> "" /\
      (forall resp payload s,
         ApiAuth.response err = Some resp -> ApiAuth.data resp = Some payload ->
         message payload = Some s -> s <> "" -> m = s) /\
      (ApiAuth.response err = None \/
       (exists resp, ApiAuth.response err = Some resp /\ ApiAuth.data resp = None) \/
       (exists resp payload,
          ApiAuth.response err = Some resp /\ ApiAuth.data resp = Some payload /\
          (message payload = None \/ message payload = Some "")) ->
       m = "Registration failed").
Proof.
  intros w email password err.
  eexists _, (or_else (AuthContext.response_message err) "Registration failed").
  rewrite register_rejected. unfold AuthContext.register_catch.
  repeat split; try reflexivity.
  - now apply or_else_nonempty.
  - intros resp payload s Hr Hd Hs Hne.
    rewrite (response_message_present err resp payload Hr Hd).
    now apply or_else_message.
  - intros [Hn | [Hn | (resp & payload & Hr & Hd & Hm)]].
    + rewrite response_message_missing by now left. reflexivity.
    + rewrite response_message_missing by now right. reflexivity.
    + rewrite (response_message_present err resp payload Hr Hd).
      now apply or_else_fallback.
Qed.

Lemma register_failure_keeps_session_witness :
  let w := AuthContext.mount {[ "token" := "tok1" ]} None in
  (exists w',
     AuthContext.register "a@b.com" "pw" (ApiAuth.Rejected Sample.unauthorized) w
       = Some (w', Throw (Error "Invalid credentials")) /\
     AuthContext.token w' = Some "tok1" /\
     AuthContext.error w' = Some "Invalid credentials") /\
  (exists w',
     AuthContext.register "a@b.com" "pw" (ApiAuth.Rejected Sample.unreachable) w
       = Some (w', Throw (Error "Registration failed")) /\
     AuthContext.token w' = Some "tok1").
Proof.
  intros w. split.
  - destruct (register_failure_keeps_session w "a@b.com" "pw" Sample.unauthorized)
      as (w' & m & H1 & H2 & _ & _ & _ & H6 & _ & _ & Hm & _).
    assert (E : m = "Invalid credentials")
      by (apply (Hm _ _ _ eq_refl eq_refl eq_refl); discriminate).
    subst m. exists w'. split; [exact H1|]. split; [exact H2 | exact H6].
  - destruct (register_failure_keeps_session w "a@b.com" "pw" Sample.unreachable)
      as (w' & m & H1 & H2 & _ & _ & _ & _ & _ & _ & _ & Hf).
    assert (E : m = "Registration failed") by (apply Hf; now left).
    subst m. exists w'. split; [exact H1 | exact H2].
Defined.

(** X2: when the registration collaborator answers with a payload whose
    [token] is a non-empty string, the provider, in any state it can reach,
    ends with that token, the payload's user, the token persisted and the
    default credential set to its bearer header, [loading] false and no
    error: the same session a login with that answer gives. *)
Theorem register_success_authenticates :
  forall (w : AuthContext.World) (email password : string)
         (r : ApiAuth.AuthResponse) (t : string),
    AuthContext.reachable w ->
    ApiAuth.token r = Some t ->
    t <> "" ->
    exists w',
      AuthContext.register email password (ApiAuth.AuthData r) w = Some (w', Ok tt) /\
      AuthContext.token w' = Some t /\
      AuthContext.user w' = Some (ApiAuth.user r) /\
      AuthContext.localStorage w' !! "token" = Some t /\
      AuthContext.axios_Authorization w' = Some (Bearer t) /\
      Auth.isAuthenticated (AuthContext.localStorage w') = true /\
      AuthContext.loading w' = false /\
      AuthContext.error w' = None /\
      (forall w2, AuthContext.login email password (ApiAuth.AuthData r) w = Some (w2, Ok tt) ->
         AuthContext.state w2 = AuthContext.state w' /\
         AuthContext.localStorage w2 = AuthContext.localStorage w' /\
         AuthContext.axios_Authorization w2 = AuthContext.axios_Authorization w').
Proof.
  intros w email password r t Hr Ht Hne.
  pose proof (reachable_synced w Hr) as Hs.
  assert (Hreg : AuthContext.register email password (ApiAuth.AuthData r) w
          = Some (AuthContext.register_then r
                    (AuthContext.retire (length (AuthContext.pending w))
                       (AuthContext.register_begin email password w)))).
  { unfold AuthContext.register, AuthContext.handle, AuthContext.register_begin,
      AuthContext.issue; simpl. now rewrite list_lookup_middle. }
  rewrite Hreg. unfold AuthContext.register_then.
  set (w0 := AuthContext.retire _ (AuthContext.register_begin email password w)).
  set (w1 := AuthContext.upd (AuthContext.setLoading false)
               (AuthContext.handleAuthResponse r w0)).
  eexists. split; [reflexivity|].
  assert (Hsy : Session.synced (AuthContext.render (AuthContext.token w0) w1)).
  { apply (synced_authenticated w0); [reflexivity | exact Hs]. }
  destruct Hsy as [Ha Hl]. rewrite token_render in Ha, Hl.
  change (AuthContext.token w1) with (ApiAuth.token r) in *. rewrite Ht in *.
  rewrite (credential_truthy t Hne) in Ha. rewrite (persisted_truthy t Hne) in Hl.
  rewrite token_render, user_render, error_render.
  split; [exact Ht|]. split; [reflexivity|]. split; [exact Hl|]. split; [exact Ha|].
  split; [now apply (isAuthenticated_stored _ t)|].
  split; [now apply loading_render|]. split; [reflexivity|].
  intros w2 Hlog. rewrite login_answered in Hlog.
  unfold AuthContext.login_then in Hlog. injection Hlog as <-.
  apply render_same_session; reflexivity.
Qed.

Lemma register_success_authenticates_witness :
  let w := AuthContext.mount ∅ None in
  let r := ApiAuth.mkAuthResponse (Some "tok2") Sample.alice in
  AuthContext.reachable w /\
  exists w',
    AuthContext.register "a@b.com" "secret" (ApiAuth.AuthData r) w = Some (w', Ok tt) /\
    AuthContext.token w' = Some "tok2" /\
    AuthContext.user w' = Some Sample.alice /\
    AuthContext.localStorage w' !! "token" = Some "tok2" /\
    AuthContext.axios_Authorization w' = Some "Bearer tok2".
Proof.
  intros w r. split; [apply AuthContext.reachable_mount|].
  destruct (register_success_authenticates w "a@b.com" "secret" r "tok2"
              (AuthContext.reachable_mount _ _) eq_refl)
    as (w' & H1 & H2 & H3 & H4 & H5 & _); [discriminate|].
  exists w'. repeat split; assumption.
Defined.

(** X3: a provider mounted on a stored, non-empty token whose profile
    request is answered with a user record ends restored: that user, the
    stored token kept in state and in storage, the default credential set,
    [loading] false, no error, and the one profile request, sent with the
    stored token's bearer header, no longer pending. *)
Theorem successful_restore :
  forall (storage : gmap string string) (axios0 : option string) (t : string) (u : User),
    storage !! "token" = Some t ->
    t <> "" ->
    exists w',
      AuthContext.handle (AuthContext.Settle 0 (ApiAuth.UserData u))
        (AuthContext.mount storage axios0) = Some (w', Ok tt) /\
      AuthContext.user w' = Some u /\
      AuthContext.token w' = Some t /\
      AuthContext.loading w' = false /\
      AuthContext.error w' = None /\
      AuthContext.localStorage w' !! "token" = Some t /\
      AuthContext.axios_Authorization w' = Some (Bearer t) /\
      AuthContext.calls w' = [ApiAuth.GetMe (Bearer t)] /\
      AuthContext.pending w' = [] /\
      (forall k, k <> "token" -> AuthContext.localStorage w' !! k = storage !! k).
Proof.
  intros storage axios0 t u Hs Hne.
  rewrite (mount_with_token storage axios0 t Hs Hne).
  eexists. split; [reflexivity|]. simpl.
  repeat split.
  - apply lookup_insert_eq.
  - intros k Hk. now rewrite lookup_insert_ne.
Qed.

Lemma successful_restore_witness :
  let storage : gmap string string := {[ "token" := "tok1" ]} in
  storage !! "token" = Some "tok1" /\
  exists w',
    AuthContext.handle (AuthContext.Settle 0 (ApiAuth.UserData Sample.alice))
      (AuthContext.mount storage None) = Some (w', Ok tt) /\
    AuthContext.user w' = Some Sample.alice /\
    AuthContext.token w' = Some "tok1".
Proof.
  intros storage. split; [reflexivity|].
  destruct (successful_restore storage None "tok1" Sample.alice eq_refl)
    as (w' & H1 & H2 & H3 & _); [discriminate|].
  exists w'. repeat split; assumption.
Defined.

(** X4: a provider mounted on a storage with no token, or with an empty
    one, is ready at once: no request is sent, [loading] is false, there is
    no user, the ['token'] key and the default credential are removed, and
    the other keys of the storage are left alone. *)
Theorem mount_without_session :
  forall (storage : gmap string string) (axios0 : option string),
    storage !! "token" = None \/ storage !! "token" = Some "" ->
    AuthContext.calls (AuthContext.mount storage axios0) = [] /\
    AuthContext.pending (AuthContext.mount storage axios0) = [] /\
    AuthContext.loading (AuthContext.mount storage axios0) = false /\
    AuthContext.user (AuthContext.mount storage axios0) = None /\
    truthy (AuthContext.token (AuthContext.mount storage axios0)) = false /\
    AuthContext.localStorage (AuthContext.mount storage axios0) = delete "token" storage /\
    AuthContext.axios_Authorization (AuthContext.mount storage axios0) = None.
Proof.
  intros storage axios0 H.
  assert (Hf : truthy (storage !! "token") = false) by (destruct H as [-> | ->]; reflexivity).
  rewrite (mount_without_token storage axios0 Hf). simpl.
  repeat split. exact Hf.
Qed.

Lemma mount_without_session_witness :
  let storage : gmap string string := {[ "token" := ""; "theme" := "dark" ]} in
  (storage !! "token" = None \/ storage !! "token" = Some "") /\
  AuthContext.calls (AuthContext.mount storage (Some "Bearer old")) = [] /\
  AuthContext.localStorage (AuthContext.mount storage (Some "Bearer old"))
    = delete "token" storage /\
  AuthContext.axios_Authorization (AuthContext.mount storage (Some "Bearer old")) = None.
Proof.
  intros storage.
  assert (H : storage !! "token" = None \/ storage !! "token" = Some "")
    by (right; reflexivity).
  split; [exact H|].
  destruct (mount_without_session storage (Some "Bearer old") H)
    as (H1 & _ & _ & _ & _ & H6 & H7).
  repeat split; assumption.
Defined.

(** X5: whenever a pending request is answered, whatever the request and
    the answer, the provider ends with [loading] false, even while other
    requests are still awaiting their answers. *)
Theorem loading_false_after_any_answer :
  forall (i : nat) (o : ApiAuth.Outcome) (w w' : AuthContext.World) (r : Res unit),
    AuthContext.handle (AuthContext.Settle i o) w = Some (w', r) ->
    AuthContext.loading w' = false.
Proof.
  intros i o w w' r H. settle_inv H; try reflexivity.
  - now apply loading_render.
  - now apply loading_render.
  - unfold AuthContext.loadUser_catch. now apply loading_render.
Qed.

Lemma loading_false_after_any_answer_witness :
  let w := AuthContext.login_begin "a@b.com" "pw"
             (AuthContext.mount {[ "token" := "tok1" ]} None) in
  exists w',
    AuthContext.pending w = [ApiAuth.GetMe "Bearer tok1"; ApiAuth.PostLogin "a@b.com" "pw"] /\
    AuthContext.loading w = true /\
    AuthContext.handle (AuthContext.Settle 0 (ApiAuth.UserData Sample.alice)) w
      = Some (w', Ok tt) /\
    AuthContext.pending w' = [ApiAuth.PostLogin "a@b.com" "pw"] /\
    AuthContext.loading w' = false.
Proof.
  intros w. eexists. split; [reflexivity|]. split; [reflexivity|].
  split; [reflexivity|]. split; [reflexivity|].
  apply (loading_false_after_any_answer 0 (ApiAuth.UserData Sample.alice) w _ (Ok tt)).
  reflexivity.
Defined.

(** X6: [logout] does not cancel a profile request that is on its way.
    When its answer arrives after the logout, [loadUser] stores the user it
    carries: the provider then has a user although it has no token and
    nothing is persisted. *)
Theorem late_profile_answer_after_logout :
  forall (w : AuthContext.World) (i : nat) (a : string) (u : User),
    AuthContext.pending w !! i = Some (ApiAuth.GetMe a) ->
    exists w',
      AuthContext.run [AuthContext.CallLogout;
                       AuthContext.Settle i (ApiAuth.UserData u)] w = Some w' /\
      AuthContext.user w' = Some u /\
      AuthContext.token w' = None /\
      AuthContext.localStorage w' !! "token" = None /\
      Auth.isAuthenticated (AuthContext.localStorage w') = false.
Proof.
  intros w i a u Hp. simpl. rewrite pending_logout, Hp. simpl.
  eexists. split; [reflexivity|].
  assert (Hl : AuthContext.localStorage
                 (AuthContext.loadUser_then u (AuthContext.retire i (AuthContext.logout w)))
               !! "token" = None) by (simpl; apply provider_logout_token).
  split; [reflexivity|]. split.
  - change (AuthContext.token (AuthContext.logout w) = None).
    unfold AuthContext.logout. now rewrite token_render.
  - split; [exact Hl|]. unfold Auth.isAuthenticated, Auth.getToken. now rewrite Hl.
Qed.

Lemma late_profile_answer_after_logout_witness :
  let w := AuthContext.mount {[ "token" := "tok1" ]} None in
  AuthContext.pending w !! 0%nat = Some (ApiAuth.GetMe "Bearer tok1") /\
  exists w',
    AuthContext.run [AuthContext.CallLogout;
                     AuthContext.Settle 0 (ApiAuth.UserData Sample.alice)] w = Some w' /\
    AuthContext.user w' = Some Sample.alice /\
    AuthContext.token w' = None.
Proof.
  intros w. split; [reflexivity|].
  destruct (late_profile_answer_after_logout w 0 "Bearer tok1" Sample.alice eq_refl)
    as (w' & H1 & H2 & H3 & _).
  exists w'. repeat split; assumption.
Defined.

(** X7: the rejection of any pending profile request logs the session out,
    whichever token that request was sent for: afterwards there is no
    token, no persisted token and no default credential, while the user
    record is left exactly as it was. *)
Theorem rejected_profile_request_clears_token :
  forall (w : AuthContext.World) (i : nat) (a : string) (err : ApiAuth.AxiosError),
    AuthContext.reachable w ->
    AuthContext.pending w !! i = Some (ApiAuth.GetMe a) ->
    exists w',
      AuthContext.handle (AuthContext.Settle i (ApiAuth.Rejected err)) w
        = Some (w', Ok tt) /\
      AuthContext.token w' = None /\
      AuthContext.localStorage w' !! "token" = None /\
      AuthContext.axios_Authorization w' = None /\
      AuthContext.user w' = AuthContext.user w /\
      AuthContext.loading w' = false.
Proof.
  intros w i a err Hr Hp.
  assert (Hh : AuthContext.handle (AuthContext.Settle i (ApiAuth.Rejected err)) w
               = Some (AuthContext.loadUser_catch (AuthContext.retire i w), Ok tt))
    by (simpl; now rewrite Hp).
  eexists. split; [exact Hh|].
  pose proof (synced_step _ _ _ _ Hh (reachable_synced w Hr)) as [Ha Hl].
  assert (Ht : AuthContext.token (AuthContext.loadUser_catch (AuthContext.retire i w)) = None)
    by (unfold AuthContext.loadUser_catch; now rewrite token_render).
  rewrite Ht in Ha, Hl.
  split; [exact Ht|]. split; [exact Hl|]. split; [exact Ha|]. split.
  - unfold AuthContext.loadUser_catch. now rewrite user_render.
  - unfold AuthContext.loadUser_catch. now apply loading_render.
Qed.

Lemma rejected_profile_request_clears_token_witness :
  exists w w',
    AuthContext.run [AuthContext.CallLogin "a@b.com" "pw";
                     AuthContext.Settle 1 (ApiAuth.AuthData
                                             (ApiAuth.mkAuthResponse (Some "new") Sample.alice))]
      (AuthContext.mount {[ "token" := "old" ]} None) = Some w /\
    AuthContext.reachable w /\
    AuthContext.token w = Some "new" /\
    AuthContext.pending w !! 0%nat = Some (ApiAuth.GetMe "Bearer old") /\
    AuthContext.handle (AuthContext.Settle 0 (ApiAuth.Rejected Sample.unauthorized)) w
      = Some (w', Ok tt) /\
    AuthContext.token w' = None /\
    AuthContext.localStorage w' !! "token" = None /\
    AuthContext.user w' = Some Sample.alice.
Proof.
  destruct (AuthContext.run
              [AuthContext.CallLogin "a@b.com" "pw";
               AuthContext.Settle 1 (ApiAuth.AuthData
                                       (ApiAuth.mkAuthResponse (Some "new") Sample.alice))]
              (AuthContext.mount {[ "token" := "old" ]} None)) as [w|] eqn:Hrun;
    [|vm_compute in Hrun; discriminate].
  assert (Hr : AuthContext.reachable w)
    by (apply (run_reachable _ _ _ (AuthContext.reachable_mount _ _) Hrun)).
  vm_compute in Hrun. injection Hrun as Hw.
  assert (Hp : AuthContext.pending w !! 0%nat = Some (ApiAuth.GetMe "Bearer old"))
    by (rewrite <- Hw; reflexivity).
  destruct (rejected_profile_request_clears_token w 0 "Bearer old"
              Sample.unauthorized Hr Hp) as (w' & H1 & H2 & H3 & _ & H5 & _).
  exists w, w'. split; [reflexivity|]. split; [exact Hr|].
  split; [rewrite <- Hw; reflexivity|]. split; [exact Hp|].
  split; [exact H1|]. split; [exact H2|]. split; [exact H3|].
  rewrite H5, <- Hw. reflexivity.
Defined.

(** X8: the provider never asks for the profile without a token: in every
    state it can reach, each profile request it has sent carries the bearer
    header of a non-empty token. *)
Theorem profile_requests_carry_a_token :
  forall (w : AuthContext.World) (a : string),
    AuthContext.reachable w ->
    In (ApiAuth.GetMe a) (AuthContext.calls w) ->
    exists t, t <> "" /\ a = Bearer t.
Proof.
  intros w a Hr. revert a.
  assert (Hrender : forall prev w1,
            (forall a, In (ApiAuth.GetMe a) (AuthContext.calls w1) ->
                       exists t, t <> "" /\ a = Bearer t) ->
            forall a, In (ApiAuth.GetMe a) (AuthContext.calls (AuthContext.render prev w1)) ->
                      exists t, t <> "" /\ a = Bearer t).
  { intros prev w1 IH a Hin.
    destruct (calls_render prev w1) as [He | (t & Hne & _ & He)]; rewrite He in Hin.
    - now apply IH.
    - apply in_app_or in Hin. destruct Hin as [Hin | [[= <-] | []]]; [now apply IH|].
      now exists t. }
  induction Hr as [storage axios0 | ev w w' r _ IH H].
  - intros a Hin. unfold AuthContext.mount in Hin.
    destruct (calls_runEffects
                (AuthContext.mkWorld
                   (AuthContext.mkState None (storage !! "token") true None)
                   storage axios0 [] [] [])) as [He | (t & Hne & _ & He)];
      rewrite He in Hin; simpl in Hin.
    + destruct Hin.
    + destruct Hin as [[= <-] | []]. now exists t.
  - destruct ev as [e p|e p| |i o].
    + injection H as <- <-. intros a Hin. simpl in Hin.
      apply in_app_or in Hin. destruct Hin as [Hin | [[=] | []]]. now apply IH.
    + injection H as <- <-. intros a Hin. simpl in Hin.
      apply in_app_or in Hin. destruct Hin as [Hin | [[=] | []]]. now apply IH.
    + injection H as <- <-. unfold AuthContext.logout. now apply Hrender.
    + settle_inv H; try exact IH.
      * now apply Hrender.
      * now apply Hrender.
      * unfold AuthContext.loadUser_catch. now apply Hrender.
Qed.

Lemma profile_requests_carry_a_token_witness :
  let w := AuthContext.mount {[ "token" := "tok1" ]} None in
  AuthContext.reachable w /\
  In (ApiAuth.GetMe "Bearer tok1") (AuthContext.calls w) /\
  exists t, t <> "" /\ "Bearer tok1" = Bearer t.
Proof.
  intros w.
  assert (Hr : AuthContext.reachable w) by apply AuthContext.reachable_mount.
  assert (Hin : In (ApiAuth.GetMe "Bearer tok1") (AuthContext.calls w)) by (left; reflexivity).
  split; [exact Hr|]. split; [exact Hin|].
  exact (profile_requests_carry_a_token w "Bearer tok1" Hr Hin).
Defined.

(** X9: logging out twice is the same as logging out once. *)
Theorem logout_idempotent :
  forall (w : AuthContext.World),
    AuthContext.logout (AuthContext.logout w) = AuthContext.logout w.
Proof.
  intros [[u tk l e] ls ax cs ps ns].
  destruct tk as [t|];
    cbv [AuthContext.logout AuthContext.render AuthContext.runEffects
         AuthContext.loadUser AuthContext.syncEffect AuthContext.with_storage
         AuthContext.with_axios AuthContext.upd AuthContext.token
         AuthContext.setUser AuthContext.setToken AuthContext.setLoading
         AuthContext.state AuthContext.localStorage AuthContext.axios_Authorization
         AuthContext.calls AuthContext.pending AuthContext.navigations
         AuthContext.st_user AuthContext.st_token AuthContext.st_loading
         AuthContext.st_error];
    repeat case_decide; try congruence; now rewrite ?delete_delete_eq.
Qed.

(** X10: a login answered with a payload completes normally whatever the
    payload's token is: the provider takes the payload's token and user as
    they are, ends with [loading] false and with the error of an earlier
    attempt cleared.  With a missing or empty token it thus holds a user
    while nothing is persisted, no default credential is set and no profile
    request is sent. *)
Theorem login_success_for_any_token :
  forall (w : AuthContext.World) (email password : string) (r : ApiAuth.AuthResponse),
    AuthContext.reachable w ->
    exists w',
      AuthContext.login email password (ApiAuth.AuthData r) w = Some (w', Ok tt) /\
      AuthContext.token w' = ApiAuth.token r /\
      AuthContext.user w' = Some (ApiAuth.user r) /\
      AuthContext.loading w' = false /\
      AuthContext.error w' = None /\
      (truthy (ApiAuth.token r) = false ->
       AuthContext.localStorage w' !! "token" = None /\
       AuthContext.axios_Authorization w' = None /\
       AuthContext.calls w' = (AuthContext.calls w ++ [ApiAuth.PostLogin email password])%list).
Proof.
  intros w email password r Hr. rewrite login_answered. unfold AuthContext.login_then.
  set (w0 := AuthContext.retire _ (AuthContext.login_begin email password w)).
  set (w1 := AuthContext.upd (AuthContext.setLoading false)
               (AuthContext.handleAuthResponse r w0)).
  eexists. split; [reflexivity|].
  rewrite token_render, user_render, error_render.
  split; [reflexivity|]. split; [reflexivity|].
  split; [now apply loading_render|]. split; [reflexivity|].
  intros Hf.
  assert (Hsy : Session.synced (AuthContext.render (AuthContext.token w0) w1)).
  { apply (synced_authenticated w0); [reflexivity | exact (reachable_synced w Hr)]. }
  destruct Hsy as [Ha Hl]. rewrite token_render in Ha, Hl.
  change (AuthContext.token w1) with (ApiAuth.token r) in *.
  unfold Session.persisted in Hl. rewrite Hf in Hl.
  split; [exact Hl|]. split.
  - rewrite Ha. unfold Session.credential.
    destruct (ApiAuth.token r) as [t|]; simpl in Hf; [now rewrite Hf | reflexivity].
  - destruct (calls_render (AuthContext.token w0) w1) as [He | (t & Hne & Htk & _)].
    + rewrite He. unfold w1, w0, AuthContext.login_begin. simpl. reflexivity.
    + exfalso. change (AuthContext.token w1) with (ApiAuth.token r) in Htk.
      rewrite Htk in Hf. simpl in Hf. apply truthy_str_true in Hne. congruence.
Qed.

Lemma login_success_for_any_token_witness :
  let w := AuthContext.mount {[ "token" := "tok1" ]} None in
  let r := ApiAuth.mkAuthResponse None Sample.alice in
  AuthContext.reachable w /\
  exists w',
    AuthContext.login "a@b.com" "pw" (ApiAuth.AuthData r) w = Some (w', Ok tt) /\
    AuthContext.token w' = None /\
    AuthContext.user w' = Some Sample.alice /\
    AuthContext.localStorage w' !! "token" = None.
Proof.
  intros w r.
  assert (Hr : AuthContext.reachable w) by apply AuthContext.reachable_mount.
  split; [exact Hr|].
  destruct (login_success_for_any_token w "a@b.com" "pw" r Hr)
    as (w' & H1 & H2 & H3 & _ & _ & H6).
  exists w'. split; [exact H1|]. split; [exact H2|]. split; [exact H3|].
  exact (proj1 (H6 eq_refl)).
Defined.

(** ** The wrapper [withAuth] *)

(** X11: mounted without a stored, non-empty token, [withAuth] asks the
    router for ['/login'], sends no request and touches no storage; since
    [checkAuth] returns before its [try], [isLoading] is never reset and the
    wrapper keeps rendering 'Loading...', never the wrapped component. *)
Theorem withAuth_unauthenticated :
  forall (json : JSON) (o : Api.Outcome (option User)) (b : Auth.Browser),
    Auth.isAuthenticated (Auth.localStorage b) = false ->
    exists b',
      WithAuth.checkAuth_begin b = (b', None) /\
      WithAuth.checkAuth o b = (WithAuth.initial, b') /\
      WithAuth.view WithAuth.initial = WithAuth.LoadingText /\
      Auth.localStorage b' = Auth.localStorage b /\
      Auth.navigations b' = (Auth.navigations b ++ [RouterNavigate "/login"])%list.
Proof.
  intros json o b H. unfold WithAuth.checkAuth, WithAuth.checkAuth_begin.
  rewrite H. simpl. eexists. repeat split.
Qed.

Lemma withAuth_unauthenticated_witness :
  let b := Auth.mkBrowser {[ "token" := "" ]} [] in
  Auth.isAuthenticated (Auth.localStorage b) = false /\
  exists b',
    WithAuth.checkAuth (json := UserJson.json) (Api.IsOk (Some Sample.alice)) b
      = (WithAuth.initial, b') /\
    Auth.navigations b' = [RouterNavigate "/login"].
Proof.
  intros b. split; [reflexivity|].
  destruct (withAuth_unauthenticated UserJson.json (Api.IsOk (Some Sample.alice)) b eq_refl)
    as (b' & _ & H2 & _ & _ & H5).
  exists b'. split; [exact H2 | exact H5].
Defined.

(** X12: mounted with a stored token whose profile request fails,
    [withAuth] stops loading and renders the wrapped component with
    [user = null].  The session is gone from storage and ['/login'] is
    requested through [window.location.href]: [fetchUserProfile] has
    handled the failure itself, so the [catch] of [checkAuth], with its
    [logout(navigate)], never runs, whatever the answer. *)
Theorem withAuth_failed_profile :
  forall (json : JSON) (o : Api.Outcome (option User)) (e : JsError) (b : Auth.Browser),
    Auth.isAuthenticated (Auth.localStorage b) = true ->
    Api.apiRequest_then o = Throw e ->
    (exists s b',
       WithAuth.checkAuth o b = (s, b') /\
       WithAuth.view s = WithAuth.Wrapped None /\
       Auth.localStorage b' !! "token" = None /\
       Auth.localStorage b' !! "user" = None /\
       Auth.navigations b' = (Auth.navigations b ++ [LocationHref "/login"])%list) /\
    (forall o' s0 b0,
       ~ In (RouterNavigate "/login") (Auth.navigations b0) ->
       ~ In (RouterNavigate "/login")
           (Auth.navigations (snd (WithAuth.checkAuth_then o' s0 b0)))).
Proof.
  intros json o e b Ha Ho. split.
  - unfold WithAuth.checkAuth, WithAuth.checkAuth_begin. rewrite Ha. simpl.
    unfold WithAuth.checkAuth_then, Auth.fetchUserProfile_then. rewrite Ho.
    eexists _, _. split; [reflexivity|]. simpl.
    split; [reflexivity|].
    split; [rewrite lookup_delete_ne by discriminate; apply lookup_delete_eq|].
    split; [apply lookup_delete_eq | reflexivity].
  - intros o' s0 b0 Hn.
    unfold WithAuth.checkAuth_then, Auth.fetchUserProfile_then.
    destruct (Api.apiRequest_then o') as [[u|]|e']; simpl; try exact Hn.
    intros Hin. apply in_app_or in Hin. destruct Hin as [Hin | [[=] | []]].
    now apply Hn.
Qed.

Lemma withAuth_failed_profile_witness :
  let b := Auth.mkBrowser {[ "token" := "tok1" ]} [] in
  let o : Api.Outcome (option User) := Api.NotOk (mkErrorBody None) in
  Auth.isAuthenticated (Auth.localStorage b) = true /\
  Api.apiRequest_then o = Throw (Error "Something went wrong") /\
  exists s b',
    WithAuth.checkAuth (json := UserJson.json) o b = (s, b') /\
    WithAuth.view s = WithAuth.Wrapped None /\
    Auth.localStorage b' !! "token" = None /\
    Auth.navigations b' = [LocationHref "/login"].
Proof.
  intros b o. split; [reflexivity|]. split; [reflexivity|].
  destruct (withAuth_failed_profile UserJson.json o (Error "Something went wrong") b
              eq_refl eq_refl) as [(s & b' & H1 & H2 & H3 & _ & H5) _].
  exists s, b'. repeat split; assumption.
Defined.

(** X13: mounted with a stored token whose profile request succeeds,
    [withAuth] renders the wrapped component with the fetched user, stores
    that user under ['user'] (so that [getCurrentUser] returns it, given
    that [JSON.parse] undoes [JSON.stringify] on it), and leaves the token
    and the navigation alone. *)
Theorem withAuth_profile_loaded :
  forall (json : JSON) (u : User) (b : Auth.Browser),
    Auth.isAuthenticated (Auth.localStorage b) = true ->
    JSON_parse (JSON_stringify u) = Some (Some u) ->
    JSON_stringify u <> "" ->
    exists s b',
      WithAuth.checkAuth (Api.IsOk (Some u)) b = (s, b') /\
      WithAuth.view s = WithAuth.Wrapped (Some u) /\
      Auth.getCurrentUser (Auth.localStorage b') = Ok (Some u) /\
      Auth.getToken (Auth.localStorage b') = Auth.getToken (Auth.localStorage b) /\
      Auth.navigations b' = Auth.navigations b.
Proof.
  intros json u b Ha Hrt Hne.
  unfold WithAuth.checkAuth, WithAuth.checkAuth_begin. rewrite Ha. simpl.
  eexists _, _. split; [reflexivity|]. simpl.
  split; [reflexivity|]. split.
  - unfold Auth.getCurrentUser. rewrite lookup_insert_eq.
    apply truthy_str_true in Hne. now rewrite Hne, Hrt.
  - split; [|reflexivity]. unfold Auth.getToken. now rewrite lookup_insert_ne.
Qed.

Lemma withAuth_profile_loaded_witness :
  let b := Auth.mkBrowser {[ "token" := "tok1" ]} [] in
  Auth.isAuthenticated (Auth.localStorage b) = true /\
  exists s b',
    WithAuth.checkAuth (json := UserJson.json) (Api.IsOk (Some Sample.alice)) b = (s, b') /\
    WithAuth.view s = WithAuth.Wrapped (Some Sample.alice) /\
    Auth.getCurrentUser (json := UserJson.json) (Auth.localStorage b') = Ok (Some Sample.alice).
Proof.
  intros b. split; [reflexivity|].
  destruct (withAuth_profile_loaded UserJson.json Sample.alice b eq_refl)
    as (s & b' & H1 & H2 & H3 & _); [vm_compute; reflexivity | vm_compute; discriminate |].
  exists s, b'. repeat split; assumption.
Defined.

(** ** The standalone module: registration, profile refresh, logout *)

(** X14: [registerUser] on a failed registration leaves the browser as it
    was and rejects with a non-empty message; on a payload with a non-empty
    token it stores token and user, after which [isAuthenticated()] is true
    and [getCurrentUser()] is the payload's user (given that [JSON.parse]
    undoes [JSON.stringify] on it), and returns that user. *)
Theorem registerUser_contract :
  forall (json : JSON) (b : Auth.Browser) (body : ErrorBody)
         (r : ApiAuth.AuthResponse) (t : string),
    ApiAuth.token r = Some t ->
    t <> "" ->
    JSON_parse (JSON_stringify (ApiAuth.user r)) = Some (Some (ApiAuth.user r)) ->
    JSON_stringify (ApiAuth.user r) <> "" ->
    (exists m,
       Auth.registerUser_then (Api.NotOk body) b = (b, Throw (Error m)) /\ m <> "") /\
    (exists b',
       Auth.registerUser_then (Api.IsOk r) b = (b', Ok (ApiAuth.user r)) /\
       Auth.getToken (Auth.localStorage b') = Some t /\
       Auth.isAuthenticated (Auth.localStorage b') = true /\
       Auth.getCurrentUser (Auth.localStorage b') = Ok (Some (ApiAuth.user r)) /\
       Auth.navigations b' = Auth.navigations b /\
       (forall k, k <> "token" -> k <> "user" ->
          Auth.localStorage b' !! k = Auth.localStorage b !! k)).
Proof.
  intros json b body r t Ht Hne Hrt Hse. split.
  - eexists. split; [reflexivity|]. now apply or_else_nonempty.
  - unfold Auth.registerUser_then; simpl. eexists. split; [reflexivity|]. simpl.
    rewrite (saveUser_with_token r t _ Ht Hne).
    assert (Hs : (<["user" := JSON_stringify (ApiAuth.user r)]>
                    (<["token" := t]> (Auth.localStorage b)) : gmap string string)
                 !! "token" = Some t).
    { rewrite lookup_insert_ne by discriminate. apply lookup_insert_eq. }
    split; [exact Hs|]. split; [now apply (isAuthenticated_stored _ t)|]. split.
    + unfold Auth.getCurrentUser. rewrite lookup_insert_eq.
      apply truthy_str_true in Hse. now rewrite Hse, Hrt.
    + split; [reflexivity|]. intros k Hk Hu.
      now rewrite !lookup_insert_ne by congruence.
Qed.

Lemma registerUser_contract_witness :
  let b := Auth.mkBrowser {[ "theme" := "dark" ]} [] in
  let r := ApiAuth.mkAuthResponse (Some "tok1") Sample.alice in
  exists b',
    Auth.registerUser_then (json := UserJson.json) (Api.IsOk r) b = (b', Ok Sample.alice) /\
    Auth.getToken (Auth.localStorage b') = Some "tok1" /\
    Auth.getCurrentUser (json := UserJson.json) (Auth.localStorage b') = Ok (Some Sample.alice) /\
    Auth.localStorage b' !! "theme" = Some "dark".
Proof.
  intros b r.
  destruct (registerUser_contract UserJson.json b (mkErrorBody None) r "tok1" eq_refl)
    as [_ (b' & H1 & H2 & _ & H4 & _ & H6)];
    [discriminate | vm_compute; reflexivity | vm_compute; discriminate |].
  exists b'. split; [exact H1|]. split; [exact H2|]. split; [exact H4|].
  rewrite H6 by discriminate. reflexivity.
Defined.

(** X15: [logout] undoes [saveUser]: whatever the response, after
    [saveUser] then [logout] the storage is the original one without its
    ['token'] and ['user'] keys; a storage that had neither comes back
    unchanged. *)
Theorem logout_undoes_saveUser :
  forall (json : JSON) (r : ApiAuth.AuthResponse) (navigate : bool)
         (storage : gmap string string) (navigations : list Navigation),
    Auth.localStorage
      (Auth.logout navigate (Auth.mkBrowser (Auth.saveUser r storage) navigations))
    = delete "user" (delete "token" storage) /\
    (storage !! "token" = None -> storage !! "user" = None ->
     Auth.localStorage
       (Auth.logout navigate (Auth.mkBrowser (Auth.saveUser r storage) navigations))
     = storage).
Proof.
  intros json r navigate storage navigations.
  assert (H : Auth.localStorage
                (Auth.logout navigate (Auth.mkBrowser (Auth.saveUser r storage) navigations))
              = delete "user" (delete "token" storage)).
  { assert (Hl : forall b, Auth.localStorage (Auth.logout navigate b)
                           = delete "user" (delete "token" (Auth.localStorage b)))
      by (intros b; destruct navigate; reflexivity).
    rewrite Hl. simpl. unfold Auth.saveUser.
    destruct (ApiAuth.token r) as [t|]; [destruct (truthy_str t)|]; try reflexivity.
    rewrite delete_insert_ne by discriminate.
    now rewrite delete_insert_eq, delete_insert_eq. }
  split; [exact H|]. intros Ht Hu. rewrite H.
  rewrite (delete_id storage "token") by exact Ht. now apply delete_id.
Qed.

(** X16: [fetchUserProfile] on a successful answer never rejects, asks for
    no navigation and never touches the token.  With a user in the answer
    it returns that user and stores it under ['user'], whether or not a
    token is stored; with an empty answer it returns [null] and changes
    nothing, a previously stored user included. *)
Theorem fetchUserProfile_success :
  forall (json : JSON) (b : Auth.Browser) (u : User),
    (exists b',
       Auth.fetchUserProfile_then (Api.IsOk (Some u)) b = (b', Ok (Some u)) /\
       Auth.localStorage b' !! "user" = Some (JSON_stringify u) /\
       Auth.getToken (Auth.localStorage b') = Auth.getToken (Auth.localStorage b) /\
       Auth.navigations b' = Auth.navigations b /\
       (forall k, k <> "user" -> Auth.localStorage b' !! k = Auth.localStorage b !! k)) /\
    Auth.fetchUserProfile_then (Api.IsOk None) b = (b, Ok None).
Proof.
  intros json b u. split; [|reflexivity].
  eexists. split; [reflexivity|]. simpl.
  split; [apply lookup_insert_eq|].
  split; [unfold Auth.getToken; now rewrite lookup_insert_ne|].
  split; [reflexivity|]. intros k Hk. now rewrite lookup_insert_ne.
Qed.

(** ** The requests of [api.ts] *)

(** X17: the headers [apiRequest] sends.  Whatever header the caller passes
    in [options.headers] is sent as given, overriding both defaults;
    otherwise ['Content-Type'] is ['application/json'], and no header other
    than the caller's, ['Content-Type'] and ['Authorization'] is ever sent.
    The URL is the base followed by the endpoint; method and body are the
    caller's. *)
Theorem apiRequest_headers :
  forall (endpoint : string) (options : Api.RequestInit) (storage : gmap string string),
    let request := Api.apiRequest_begin endpoint options storage in
    Api.url request = Api.API_BASE ++ endpoint /\
    Api.method (Api.init request) = Api.method options /\
    Api.body (Api.init request) = Api.body options /\
    (forall k v, Api.headers options !! k = Some v ->
       Api.headers (Api.init request) !! k = Some v) /\
    (Api.headers options !! "Content-Type" = None ->
       Api.headers (Api.init request) !! "Content-Type" = Some "application/json") /\
    (forall k, Api.headers options !! k = None ->
       k <> "Content-Type" -> k <> "Authorization" ->
       Api.headers (Api.init request) !! k = None).
Proof.
  intros endpoint options storage request. unfold request, Api.apiRequest_begin; simpl.
  split; [reflexivity|]. split; [reflexivity|]. split; [reflexivity|]. split; [|split].
  - intros k v Hk. now apply lookup_union_Some_l.
  - intros Hn. rewrite lookup_union_r by exact Hn.
    destruct (storage !! "token") as [t|]; [destruct (truthy_str t)|].
    + rewrite lookup_union_r by (now apply lookup_singleton_ne).
      apply lookup_singleton_eq.
    + rewrite lookup_union_r by apply lookup_empty. apply lookup_singleton_eq.
    + rewrite lookup_union_r by apply lookup_empty. apply lookup_singleton_eq.
  - intros k Hn Hc Ha. rewrite lookup_union_r by exact Hn.
    destruct (storage !! "token") as [t|]; [destruct (truthy_str t)|].
    + rewrite lookup_union_r by (apply lookup_singleton_ne; congruence).
      apply lookup_singleton_ne; congruence.
    + rewrite lookup_union_r by apply lookup_empty. apply lookup_singleton_ne; congruence.
    + rewrite lookup_union_r by apply lookup_empty. apply lookup_singleton_ne; congruence.
Qed.


(** ** Menu, title bar and greeting *)

(** X19: the 'Admin' entry is in the menu exactly when a user is present
    with [is_admin] true.  The title bar shows the text of the entry whose
    path is the current one, and 'Dashboard' on any path that has no entry,
    ['/admin'] for everybody else included; it is never empty. *)
Theorem menu_and_title :
  forall (user : option User) (pathname : string),
    (In (LayoutView.mkMenuItem "Admin" "/admin") (LayoutView.menuItems user) <->
     exists u, user = Some u /\ is_admin u = true) /\
    LayoutView.title user pathname <> "" /\
    (forall item, In item (LayoutView.menuItems user) ->
       LayoutView.path item = pathname ->
       LayoutView.title user pathname = LayoutView.text item) /\
    ((forall item, In item (LayoutView.menuItems user) ->
        LayoutView.path item <> pathname) ->
     LayoutView.title user pathname = "Dashboard").
Proof.
  intros user pathname.
  set (admin := match user with Some u => is_admin u | None => false end).
  assert (Hadm : admin = true <-> exists u, user = Some u /\ is_admin u = true).
  { unfold admin. destruct user as [u|]; split.
    - intros H. now exists u.
    - now intros (u' & [= <-] & H).
    - discriminate.
    - now intros (u' & [=] & _). }
  assert (Hitems : forall item, In item (LayoutView.menuItems user) ->
            LayoutView.text item <> "" /\
            LayoutView.title user (LayoutView.path item) = LayoutView.text item).
  { intros item Hin. unfold LayoutView.title, LayoutView.menuItems in *. fold admin in Hin |- *.
    destruct admin; simpl in Hin;
      repeat (destruct Hin as [<- | Hin]; [split; [discriminate | reflexivity]|]);
      destruct Hin. }
  split; [|split; [|split]].
  - rewrite <- Hadm. unfold LayoutView.menuItems. fold admin.
    destruct admin; simpl; split; intros H.
    + reflexivity.
    + do 6 right. now left.
    + repeat (destruct H as [H | H]; [discriminate H|]). destruct H.
    + discriminate.
  - unfold LayoutView.title. now apply or_else_nonempty.
  - intros item Hin <-. now apply Hitems.
  - intros Hno. unfold LayoutView.title.
    destruct (List.find _ _) as [item|] eqn:Hf; [|reflexivity].
    apply find_some in Hf. destruct Hf as [Hin Heq].
    exfalso. apply (Hno item Hin). now apply String.eqb_eq.
Qed.

Section Segments.
Import DashboardView.

Lemma first_segment_spec (c : ascii) (l r : string) :
  ~ In c (list_ascii_of_string l) ->
  first_segment c (l ++ String c r) = l.
Proof.
  induction l as [|a l IH]; simpl; intros Hn.
  - now rewrite Ascii.eqb_refl.
  - destruct (Ascii.eqb_spec a c) as [-> | Hne]; [exfalso; apply Hn; now left|].
    f_equal. apply IH. intros Hin. apply Hn. now right.
Qed.

Lemma first_segment_free (c : ascii) (s : string) :
  ~ In c (list_ascii_of_string (first_segment c s)).
Proof.
  induction s as [|a s IH]; simpl; [tauto|].
  destruct (Ascii.eqb_spec a c) as [-> | Hne]; simpl; [tauto|].
  intros [H | H]; [congruence | now apply IH].
Qed.

Lemma first_segment_whole (c : ascii) (s : string) :
  ~ In c (list_ascii_of_string s) -> first_segment c s = s.
Proof.
  induction s as [|a s IH]; simpl; intros Hn; [reflexivity|].
  destruct (Ascii.eqb_spec a c) as [-> | Hne]; [exfalso; apply Hn; now left|].
  f_equal. apply IH. intros Hin. apply Hn. now right.
Qed.

End Segments.


(** ** The lead generator *)
Section Leads.
Import LeadGenerator.

Lemma toggleSaved_involutive (lead : Lead) : toggleSaved (toggleSaved lead) = lead.
Proof. destruct lead. unfold toggleSaved; simpl. now rewrite negb_involutive. Qed.

Lemma occurrences_app (c : ascii) (s1 s2 : string) :
  occurrences c (s1 ++ s2) = (occurrences c s1 + occurrences c s2)%nat.
Proof. induction s1 as [|a s1 IH]; simpl; [reflexivity|]. rewrite IH. lia. Qed.

Lemma occurrences_digits (d : Decimal.uint) :
  occurrences "," (NilEmpty.string_of_uint d) = 0%nat.
Proof. induction d; simpl; assumption || reflexivity. Qed.

(** The decimal writing of an integer has no comma. *)
Lemma occurrences_show (n : Z) : occurrences "," (show n) = 0%nat.
Proof.
  unfold show, UserJson.show_Z, NilZero.string_of_int, NilZero.string_of_uint.
  destruct (Z.to_int n) as [d|d]; destruct d; simpl;
    rewrite ?occurrences_digits; reflexivity.
Qed.

Lemma occurrences_or_else_empty (a : option string) :
  occurrences "," (or_else a "") = match a with Some s => occurrences "," s | None => 0%nat end.
Proof.
  destruct a as [s|]; simpl; [|reflexivity].
  destruct (truthy_str s) eqn:E; [reflexivity|].
  apply truthy_str_false in E. now subst.
Qed.

(** Saving a lead whose identifier is unique among unsaved leads leaves
    exactly that lead saved. *)
Lemma save_unique (lead : Lead) (leads : list Lead) :
  List.NoDup (map id leads) ->
  Forall (fun l => isSaved l = false) leads ->
  In lead leads ->
  List.filter isSaved (handleSaveLead (id lead) leads) = [toggleSaved lead].
Proof.
  induction leads as [|x leads IH]; simpl; intros Hnd Hall Hin; [destruct Hin|].
  inversion Hnd as [|? ? Hnotin Hnd']; subst.
  inversion Hall as [|? ? Hx Hall']; subst.
  destruct Hin as [-> | Hin].
  - rewrite String.eqb_refl. simpl. rewrite Hx. simpl. f_equal.
    clear IH Hnd Hnd' Hall Hx. induction leads as [|y leads IH]; simpl; [reflexivity|].
    inversion Hall' as [|? ? Hy Hall'']; subst.
    destruct (String.eqb_spec (id y) (id lead)) as [E | E].
    + exfalso. apply Hnotin. left. exact E.
    + rewrite Hy. apply IH; [|exact Hall'']. intros H. apply Hnotin. now right.
  - destruct (String.eqb_spec (id x) (id lead)) as [E | E].
    + exfalso. apply Hnotin. rewrite E. now apply in_map.
    + rewrite Hx. now apply IH.
Qed.

End Leads.

(** X21: [handleSaveLead] flips [isSaved] on the leads that have the given
    identifier and changes nothing else: position by position, a lead with
    another identifier is kept as it is and a lead with that identifier is
    replaced by itself with [isSaved] negated.  So applying it twice gives
    the list back, the number and the identifiers of the leads stay the
    same, and with an identifier no lead has the list is unchanged. *)
Theorem handleSaveLead_toggles :
  forall (leadId : string) (leads : list LeadGenerator.Lead),
    LeadGenerator.handleSaveLead leadId (LeadGenerator.handleSaveLead leadId leads) = leads /\
    length (LeadGenerator.handleSaveLead leadId leads) = length leads /\
    map LeadGenerator.id (LeadGenerator.handleSaveLead leadId leads)
      = map LeadGenerator.id leads /\
    (~ In leadId (map LeadGenerator.id leads) ->
     LeadGenerator.handleSaveLead leadId leads = leads) /\
    (forall lead, In lead leads -> LeadGenerator.id lead = leadId ->
       In (LeadGenerator.toggleSaved lead) (LeadGenerator.handleSaveLead leadId leads)) /\
    (forall (i : nat) lead, leads !! i = Some lead -> LeadGenerator.id lead <> leadId ->
       LeadGenerator.handleSaveLead leadId leads !! i = Some lead) /\
    (forall (i : nat) lead, leads !! i = Some lead -> LeadGenerator.id lead = leadId ->
       LeadGenerator.handleSaveLead leadId leads !! i
       = Some (LeadGenerator.mkLead (LeadGenerator.id lead) (LeadGenerator.name lead)
                 (LeadGenerator.email lead) (LeadGenerator.phone lead)
                 (LeadGenerator.website lead) (LeadGenerator.address lead)
                 (LeadGenerator.rating lead) (LeadGenerator.industry lead)
                 (negb (LeadGenerator.isSaved lead)))) /\
    (forall (i : nat), leads !! i = None ->
       LeadGenerator.handleSaveLead leadId leads !! i = None).
Proof.
  intros leadId leads. unfold LeadGenerator.handleSaveLead.
  split; [|split; [|split; [|split; [|split; [|split; [|split]]]]]].
  - induction leads as [|x leads IH]; simpl; [reflexivity|]. rewrite IH. f_equal.
    destruct (String.eqb (LeadGenerator.id x) leadId) eqn:E; simpl; rewrite E;
      [apply toggleSaved_involutive | reflexivity].
  - apply length_map.
  - induction leads as [|x leads IH]; simpl; [reflexivity|]. rewrite IH. f_equal.
    now destruct (String.eqb (LeadGenerator.id x) leadId).
  - induction leads as [|x leads IH]; simpl; intros Hn; [reflexivity|].
    destruct (String.eqb_spec (LeadGenerator.id x) leadId) as [E | E].
    + exfalso. apply Hn. now left.
    + f_equal. apply IH. intros H. apply Hn. now right.
  - intros lead Hin Hid. apply in_map_iff. exists lead. split; [|exact Hin].
    apply String.eqb_eq in Hid. now rewrite Hid.
  - induction leads as [|x leads IH]; intros [|i] lead Hl Hne; simpl in *; try discriminate.
    + injection Hl as ->.
      destruct (String.eqb_spec (LeadGenerator.id lead) leadId); [contradiction | reflexivity].
    + now apply IH.
  - induction leads as [|x leads IH]; intros [|i] lead Hl He; simpl in *; try discriminate.
    + injection Hl as ->. apply String.eqb_eq in He. now rewrite He.
    + now apply IH.
  - induction leads as [|x leads IH]; intros [|i] Hl; simpl in *;
      try discriminate; try reflexivity.
    now apply IH.
Qed.

(** X22: whatever the form holds and whatever the random draws are,
    [onSubmit] produces twelve unsaved leads with the identifiers
    ['lead-1'] to ['lead-12'], each with the form's industry or
    'Technology' when that is empty.  Saving any one of them by its
    identifier then leaves exactly that lead saved. *)
Theorem generated_leads :
  forall (toLowerCase : string -> string) (phoneArea phoneLine stars : nat -> Z)
         (keyword location industry_value : string),
    let leads := LeadGenerator.mockLeads toLowerCase phoneArea phoneLine stars
                   keyword location industry_value in
    length leads = 12%nat /\
    map LeadGenerator.id leads
      = ["lead-1"; "lead-2"; "lead-3"; "lead-4"; "lead-5"; "lead-6";
         "lead-7"; "lead-8"; "lead-9"; "lead-10"; "lead-11"; "lead-12"] /\
    Forall (fun l => LeadGenerator.isSaved l = false) leads /\
    Forall (fun l => LeadGenerator.industry l
                     = if truthy_str industry_value then industry_value else "Technology")
           leads /\
    (forall lead, In lead leads ->
       List.filter LeadGenerator.isSaved
         (LeadGenerator.handleSaveLead (LeadGenerator.id lead) leads)
       = [LeadGenerator.toggleSaved lead]).
Proof.
  intros toLowerCase phoneArea phoneLine stars keyword location industry_value leads.
  assert (Hids : map LeadGenerator.id leads
                 = ["lead-1"; "lead-2"; "lead-3"; "lead-4"; "lead-5"; "lead-6";
                    "lead-7"; "lead-8"; "lead-9"; "lead-10"; "lead-11"; "lead-12"])
    by reflexivity.
  assert (Hall : Forall (fun l => LeadGenerator.isSaved l = false) leads)
    by (unfold leads, LeadGenerator.mockLeads; apply Forall_map; simpl;
        apply Forall_forall; reflexivity).
  split; [reflexivity|]. split; [exact Hids|]. split; [exact Hall|]. split.
  - unfold leads, LeadGenerator.mockLeads. apply Forall_map. simpl.
    apply Forall_forall. reflexivity.
  - intros lead Hin. apply save_unique; [|exact Hall|exact Hin].
    rewrite Hids. repeat constructor; simpl; intros H;
      repeat (destruct H as [H | H]; [discriminate H|]); exact H.
Qed.

(** X23: the export writes no quoting.  A row has six separating commas
    plus every comma that occurs inside its fields, so it lines up with the
    seven-column header only when no field contains a comma; the leads that
    [onSubmit] generates have two commas in their address, so each of their
    rows has at least eight. *)
Theorem export_rows_and_commas :
  forall (lead : LeadGenerator.Lead),
    LeadGenerator.occurrences "," (String.concat "," LeadGenerator.csvHeader) = 6%nat /\
    LeadGenerator.occurrences "," (String.concat "," (LeadGenerator.csvRow lead))
    = (6 + LeadGenerator.occurrences "," (LeadGenerator.name lead)
       + match LeadGenerator.email lead with
         | Some s => LeadGenerator.occurrences "," s | None => 0 end
       + match LeadGenerator.phone lead with
         | Some s => LeadGenerator.occurrences "," s | None => 0 end
       + match LeadGenerator.website lead with
         | Some s => LeadGenerator.occurrences "," s | None => 0 end
       + LeadGenerator.occurrences "," (LeadGenerator.address lead)
       + LeadGenerator.occurrences "," (LeadGenerator.industry lead))%nat /\
    (forall toLowerCase phoneArea phoneLine stars keyword location industry_value,
       In lead (LeadGenerator.mockLeads toLowerCase phoneArea phoneLine stars
                  keyword location industry_value) ->
       (8 <= LeadGenerator.occurrences "," (String.concat "," (LeadGenerator.csvRow lead)))%nat).
Proof.
  intros lead.
  assert (Hrow : LeadGenerator.occurrences "," (String.concat "," (LeadGenerator.csvRow lead))
    = (6 + LeadGenerator.occurrences "," (LeadGenerator.name lead)
       + match LeadGenerator.email lead with
         | Some s => LeadGenerator.occurrences "," s | None => 0 end
       + match LeadGenerator.phone lead with
         | Some s => LeadGenerator.occurrences "," s | None => 0 end
       + match LeadGenerator.website lead with
         | Some s => LeadGenerator.occurrences "," s | None => 0 end
       + LeadGenerator.occurrences "," (LeadGenerator.address lead)
       + LeadGenerator.occurrences "," (LeadGenerator.industry lead))%nat).
  { unfold LeadGenerator.csvRow. cbn [String.concat].
    rewrite !occurrences_app, !occurrences_or_else_empty, occurrences_show.
    cbn [LeadGenerator.occurrences Ascii.eqb Bool.eqb]. lia. }
  split; [reflexivity|]. split; [exact Hrow|].
  intros toLowerCase phoneArea phoneLine stars keyword location industry_value Hin.
  rewrite Hrow. unfold LeadGenerator.mockLeads in Hin.
  apply in_map_iff in Hin. destruct Hin as (i & <- & _).
  cbn [LeadGenerator.address LeadGenerator.mockLead].
  rewrite !occurrences_app.
  cbn [LeadGenerator.occurrences Ascii.eqb Bool.eqb]. lia.
Qed.

(** X24: [renderRating] always shows five icons, filled stars first: as
    many filled ones as the rating, none for a rating of zero or less and
    five for a rating of five or more. *)
Theorem renderRating_stars :
  forall (rating : Z),
    let filled := Z.to_nat (Z.min 5 (Z.max 0 rating)) in
    length (LeadGenerator.renderRating rating) = 5%nat /\
    LeadGenerator.renderRating rating
    = (repeat LeadGenerator.Star filled
       ++ repeat LeadGenerator.StarBorder (5 - filled))%list /\
    (0 <= rating <= 5 -> filled = Z.to_nat rating).
Proof.
  intros rating filled. split; [reflexivity|]. split; [|unfold filled; lia].
  unfold filled, LeadGenerator.renderRating.
  assert (H : rating <= 0 \/ rating = 1 \/ rating = 2 \/ rating = 3 \/ rating = 4
              \/ 5 <= rating) by lia.
  destruct H as [H | [-> | [-> | [-> | [-> | H]]]]]; try reflexivity.
  - rewrite (Z.max_l 0 rating) by exact H. cbn [seq map Z.of_nat Pos.of_succ_nat Pos.succ].
    rewrite !(proj2 (Z.ltb_ge _ _)) by lia. reflexivity.
  - rewrite (Z.max_r 0 rating) by lia. rewrite (Z.min_l 5 rating) by exact H.
    cbn [seq map Z.of_nat Pos.of_succ_nat Pos.succ].
    rewrite !(proj2 (Z.ltb_lt _ _)) by lia. reflexivity.
Qed.

(** ** The file converter *)
Section Converter.
Import FileConverter.

Lemma filter_index_above {A : Type} (index k : nat) (l : list A) :
  (index < k)%nat ->
  filter_index (fun i => negb (Nat.eqb i index)) k l = l.
Proof.
  revert k. induction l as [|x l IH]; simpl; intros k Hk; [reflexivity|].
  destruct (Nat.eqb_spec k index) as [E | E]; [lia|]. simpl.
  f_equal. apply IH. lia.
Qed.

Lemma filter_index_spec {A : Type} (index k : nat) (l : list A) :
  (k <= index)%nat ->
  filter_index (fun i => negb (Nat.eqb i index)) k l
  = (take (index - k) l ++ drop (S (index - k)) l)%list.
Proof.
  revert k. induction l as [|x l IH]; simpl; intros k Hk.
  - now rewrite take_nil.
  - destruct (Nat.eqb_spec k index) as [E | E]; simpl.
    + subst. rewrite Nat.sub_diag. simpl. rewrite drop_0.
      apply filter_index_above. lia.
    + rewrite IH by lia.
      replace (index - k)%nat with (S (index - S k)) by lia. reflexivity.
Qed.

End Converter.

(** X25: [handleRemoveFile] removes the file at the given position and no
    other, keeping the order of the rest; a position beyond the end of the
    list changes nothing.  The other cells of the page, active tab,
    [isConverting] and the error text, are untouched. *)
Theorem handleRemoveFile_removes_one :
  forall (F : Type) (index : nat) (s : FileConverter.State F),
    FileConverter.files (FileConverter.handleRemoveFile index s)
    = (take index (FileConverter.files s) ++ drop (S index) (FileConverter.files s))%list /\
    ((index < length (FileConverter.files s))%nat ->
     S (length (FileConverter.files (FileConverter.handleRemoveFile index s)))
     = length (FileConverter.files s)) /\
    ((length (FileConverter.files s) <= index)%nat ->
     FileConverter.handleRemoveFile index s = s) /\
    (forall j, (j < index)%nat ->
       FileConverter.files (FileConverter.handleRemoveFile index s) !! j
       = FileConverter.files s !! j) /\
    (forall j, (index <= j)%nat ->
       FileConverter.files (FileConverter.handleRemoveFile index s) !! j
       = FileConverter.files s !! S j) /\
    FileConverter.activeTab (FileConverter.handleRemoveFile index s) = FileConverter.activeTab s /\
    FileConverter.isConverting (FileConverter.handleRemoveFile index s)
      = FileConverter.isConverting s /\
    FileConverter.errorText (FileConverter.handleRemoveFile index s)
      = FileConverter.errorText s.
Proof.
  intros F index s.
  assert (Hf : FileConverter.files (FileConverter.handleRemoveFile index s)
               = (take index (FileConverter.files s)
                  ++ drop (S index) (FileConverter.files s))%list).
  { unfold FileConverter.handleRemoveFile; simpl.
    rewrite filter_index_spec by lia. now rewrite Nat.sub_0_r. }
  split; [exact Hf|]. split; [|split; [|split; [|split; [|split; [|split]]]]];
    try reflexivity.
  - intros Hlt. rewrite Hf, length_app, length_take, length_drop. lia.
  - intros Hge. destruct s as [tab fs conv err]; simpl in *.
    unfold FileConverter.handleRemoveFile; simpl. f_equal.
    rewrite filter_index_spec by lia. rewrite Nat.sub_0_r.
    rewrite take_ge by exact Hge. rewrite drop_ge by lia. apply app_nil_r.
  - intros j Hj. rewrite Hf.
    destruct (decide (index <= length (FileConverter.files s))%nat) as [Hle | Hgt].
    + rewrite lookup_app_l by (rewrite length_take; lia). now apply lookup_take_lt.
    + rewrite take_ge by lia. rewrite drop_ge by lia. now rewrite app_nil_r.
  - intros j Hj. rewrite Hf.
    destruct (decide (index <= length (FileConverter.files s))%nat) as [Hle | Hgt].
    + rewrite lookup_app_r by (rewrite length_take; lia).
      rewrite length_take, lookup_drop. f_equal. lia.
    + rewrite take_ge by lia. rewrite drop_ge by lia. rewrite app_nil_r.
      rewrite !lookup_ge_None_2 by lia. reflexivity.
Qed.

(** X26: [handleConvert] with no file does nothing at all, an earlier
    error text included.  With files, once the simulated conversion is
    over, every file is [completed] with the fixed download address and the
    output extension of the active tab; the files are otherwise the same
    and in the same order, each keeping what was dropped, its preview and
    its own [error] field; [isConverting] is false and the page's error
    text is cleared. *)
Theorem handleConvert_completes_all :
  forall (F : Type) (s : FileConverter.State F),
    (FileConverter.files s = [] -> FileConverter.handleConvert s = s) /\
    (FileConverter.files s <> [] ->
     let s' := FileConverter.handleConvert s in
     length (FileConverter.files s') = length (FileConverter.files s) /\
     Forall (fun f => FileConverter.status f = FileConverter.completed /\
                      FileConverter.outputFormat f
                        = Some (FileConverter.output (FileConverter.activeTab s)) /\
                      FileConverter.downloadUrl f
                        = Some "https://example.com/converted-file")
            (FileConverter.files s') /\
     map FileConverter.dropped (FileConverter.files s')
       = map FileConverter.dropped (FileConverter.files s) /\
     map FileConverter.preview (FileConverter.files s')
       = map FileConverter.preview (FileConverter.files s) /\
     map FileConverter.error (FileConverter.files s')
       = map FileConverter.error (FileConverter.files s) /\
     FileConverter.isConverting s' = false /\
     FileConverter.errorText s' = None /\
     FileConverter.activeTab s' = FileConverter.activeTab s).
Proof.
  intros F [tab fs conv err]; simpl. split.
  - intros ->. reflexivity.
  - intros Hne. unfold FileConverter.handleConvert, FileConverter.handleConvert_begin; simpl.
    destruct fs as [|f fs]; [congruence|]. cbn [length Nat.eqb].
    cbn [FileConverter.handleConvert_then FileConverter.files FileConverter.activeTab
         FileConverter.isConverting FileConverter.errorText].
    split; [now rewrite length_map|]. split; [|split; [|split; [|split]]].
    + apply Forall_map. apply Forall_forall. intros x _. now repeat split.
    + rewrite map_map. reflexivity.
    + rewrite map_map. reflexivity.
    + rewrite map_map. reflexivity.
    + now repeat split.
Qed.

Lemma handleConvert_completes_all_witness :
  let s := FileConverter.mkState FileConverter.ocr
             [FileConverter.mkFile "scan.png" (Some "blob:1") FileConverter.converting
                (Some "earlier failure") None None]
             false (Some "Conversion failed") in
  FileConverter.files s <> [] /\
  FileConverter.files (FileConverter.handleConvert s)
  = [FileConverter.mkFile "scan.png" (Some "blob:1") FileConverter.completed
       (Some "earlier failure")
       (Some "https://example.com/converted-file") (Some ".txt")] /\
  map FileConverter.error (FileConverter.files (FileConverter.handleConvert s))
  = [Some "earlier failure"] /\
  FileConverter.errorText (FileConverter.handleConvert s) = None.
Proof.
  intros s. split; [discriminate|]. split; [reflexivity|].
  destruct (handleConvert_completes_all string s) as [_ H].
  destruct (H ltac:(discriminate)) as (_ & _ & _ & _ & Hfe & _ & He & _).
  split; [exact Hfe | exact He].
Defined.

(** ** The status page *)

(** X27: whatever the status request yields, [checkStatus] ends with
    [isLoading] false and a status to show.  When the request succeeds the
    status is 'operational' with no error, whatever the answer contains,
    and version and environment fall back to '1.0.0' and 'development'
    when the answer lacks them; both are never empty.  When the request
    fails in any way the status is 'degraded' and the error is one fixed
    text: the server's own message is never shown. *)
Theorem checkStatus_outcomes :
  forall (now : string) (o : Api.Outcome (option AppStatus.StatusData)),
    AppStatus.isLoading (AppStatus.checkStatus now o) = false /\
    (forall data, o = Api.IsOk data ->
       exists st,
         AppStatus.statusCell (AppStatus.checkStatus now o) = Some st /\
         AppStatus.error (AppStatus.checkStatus now o) = None /\
         AppStatus.status st = "operational" /\
         AppStatus.version st <> "" /\
         AppStatus.environment st <> "" /\
         (AppStatus.system_field AppStatus.flask_version data = None ->
          AppStatus.version st = "1.0.0") /\
         (AppStatus.system_field AppStatus.system_environment data = None ->
          AppStatus.environment st = "development") /\
         (AppStatus.system_field AppStatus.last_updated data = None ->
          AppStatus.lastUpdated st = now)) /\
    ((forall data, o <> Api.IsOk data) ->
     AppStatus.checkStatus now o
     = AppStatus.mkState
         (Some (AppStatus.mkStatus "degraded" "unknown" "unknown" now))
         (Some "Unable to connect to the backend server. Some features may be limited.")
         false).
Proof.
  intros now o. split; [|split].
  - unfold AppStatus.checkStatus. now destruct (AppStatus.getStatus_then o).
  - intros data ->. unfold AppStatus.checkStatus; simpl.
    eexists. split; [reflexivity|]. simpl.
    split; [reflexivity|]. split; [reflexivity|].
    split; [now apply or_else_nonempty|]. split; [now apply or_else_nonempty|].
    repeat split; intros ->; reflexivity.
  - intros Hn. destruct o as [e | body | data]; try reflexivity.
    exfalso. now apply (Hn data).
Qed.

(** ** The credential on authenticated calls *)
Section CallsSent.
Import ApiAuth AuthContext Session.

(** What a render adds to the log: nothing, or one profile request that
    carries the credential of the token the provider then has. *)
Lemma render_sends_current_token (prev : option string) (w w1 : World) :
  calls w1 = calls w ->
  exists sent,
    calls (render prev w1) = (calls w ++ sent)%list /\
    forall a, In (GetMe a) sent -> credential (token (render prev w1)) = Some a.
Proof.
  intros <-.
  destruct (calls_render prev w1) as [He | (t & Hne & Ht & He)].
  - exists []. rewrite app_nil_r. split; [exact He | intros a []].
  - exists [GetMe (Bearer t)]. split; [exact He|].
    intros a [[= <-] | []]. rewrite token_render, Ht. now apply credential_truthy.
Qed.

(** Every event sends its profile request, if any, with the credential of
    the token the provider has once the event is over. *)
Lemma step_sends_current_token (ev : Event) (w w' : World) (r : Res unit) :
  handle ev w = Some (w', r) ->
  exists sent,
    calls w' = (calls w ++ sent)%list /\
    forall a, In (GetMe a) sent -> credential (token w') = Some a.
Proof.
  intros H.
  assert (Hnone : forall w0, calls w0 = calls w ->
            exists sent, calls w0 = (calls w ++ sent)%list /\
            forall a, In (GetMe a) sent -> credential (token w0) = Some a)
    by (intros w0 ->; exists []; rewrite app_nil_r; split; [reflexivity | intros a []]).
  destruct ev as [e p|e p| |i o].
  - injection H as <- <-. exists [PostLogin e p]. split; [reflexivity|].
    intros a [[=] | []].
  - injection H as <- <-. exists [PostRegister e p]. split; [reflexivity|].
    intros a [[=] | []].
  - injection H as <- <-. unfold logout. now apply render_sends_current_token.
  - settle_inv H; try (now apply Hnone).
    + now apply render_sends_current_token.
    + now apply render_sends_current_token.
    + unfold loadUser_catch. now apply render_sends_current_token.
Qed.

Lemma mount_sends_stored_token (storage : gmap string string) (axios0 : option string)
    (a : string) :
  In (GetMe a) (calls (mount storage axios0)) ->
  credential (token (mount storage axios0)) = Some a.
Proof.
  unfold mount. intros Hin.
  destruct (calls_runEffects
              (mkWorld (mkState None (storage !! "token") true None) storage axios0 [] [] []))
    as [He | (t & Hne & Ht & He)]; rewrite He in Hin; simpl in Hin.
  - destruct Hin.
  - destruct Hin as [[= <-] | []]. rewrite token_runEffects, Ht.
    now apply credential_truthy.
Qed.

End CallsSent.



